(** * xrealmauthz: the cross-realm authorization KDC policy plugin

    A shallow embedding of [src/plugins/kdcpolicy/xrealmauthz/main.c] and
    the properties of its decision procedure.

    Conventions of the embedding.
    - A [krb5_data] (pointer and length) is a [string]: its [length] bytes,
      any of which may be NUL; [%.*s] prints it as far as its first NUL
      ([print_data]).  A [char *] is a [string] too: the bytes before the
      terminator.
    - [krb5_error_code], [int] and [krb5_deltat] are [Z]; a pointer that may
      be NULL is an [option].
    - [check_cross_realm_auth] and [xrealmauthz_init] are the functions on
      a heap that grants every request: [asprintf] and [calloc] yield
      their memory, and the releases of strings in the cleanup block are
      not recorded.  [check_cross_realm_auth_alloc] and
      [xrealmauthz_init_alloc] are the same functions on a heap that can
      refuse, with their ENOMEM exits and every release recorded; on a
      heap that grants everything they are the former.  The host's
      functions keep their error codes throughout.
    - The host library (database, name unparsing) is a record of functions,
      [krb5_context]; every call to it is recorded, in order, in the state,
      next to the static buffer [denial_msg].
    - Loading and unloading the module ([xrealmauthz_init],
      [xrealmauthz_fini]) are about what is handed over and given back:
      they return, next to their results, the calls made to the profile
      library and the releases, in order.  A release is named by what it
      releases. *)

From Stdlib Require Import ZArith List String Ascii Bool Lia DecimalString.
Import ListNotations.

Local Open Scope Z_scope.
Local Open Scope string_scope.

(** ** Constants of the headers *)

Definition krb5_error_code := Z.
Definition krb5_deltat := Z.
Definition krb5_data := string.

Definition TRUE : Z := 1.

(** krb5.h: ERROR_TABLE_BASE_krb5 + 12 *)
Definition KRB5KDC_ERR_POLICY : krb5_error_code := -1765328372.

(** krb5.h *)
Definition KRB5_PRINCIPAL_UNPARSE_NO_REALM : Z := 2.

(** Prefix used for cross-realm authorization attributes *)
Definition ATTR_PREFIX : string := "xr:".
Definition MAX_DENIAL_MSG_LEN : nat := 256.

(** ** Data *)

Record krb5_principal := {
  realm : krb5_data;
  data : list krb5_data
}.

Record krb5_enc_tkt_part := {
  client : krb5_principal
}.

Record krb5_ticket := {
  ticket_server : krb5_principal;
  enc_part2 : krb5_enc_tkt_part
}.

Record krb5_kdc_req := {
  request_server : krb5_principal
}.

Record realm_entry := {
  name : string;
  length : nat (* store precomputed lengths for speed *)
}.

Record xrealmauthz_data := {
  enforcing : Z; (* Whether to actually enforce restrictions *)
  allowed_realms : option (list realm_entry)
  (* num_allowed_realms is the length of the list *)
}.

(** What [*status_out] can point at: nothing, a string literal of the
    program, or the function's static buffer. *)
Inductive status_ptr :=
| StatusNull
| StatusLiteral (s : string)
| StatusDenialMsg.

(** ** C library *)

Definition code (c : ascii) : Z := Z.of_N (N_of_ascii c).

(** The end of the string is its terminator. *)
Fixpoint strncmp (s1 s2 : string) (n : nat) : Z :=
  match n with
  | O => 0
  | S n' =>
      match s1, s2 with
      | EmptyString, EmptyString => 0
      | EmptyString, String c2 _ => 0 - code c2
      | String c1 _, EmptyString => code c1 - 0
      | String c1 t1, String c2 t2 =>
          if Ascii.eqb c1 c2 then strncmp t1 t2 n' else code c1 - code c2
      end
  end.

(** [%.*s] given the length of a [krb5_data] and its bytes: the bytes as
    far as the first NUL, all of them when there is none.  (The length is
    passed as an [int]; lengths are taken below 2^31.) *)
Fixpoint print_data (d : krb5_data) : string :=
  match d with
  | EmptyString => EmptyString
  | String c rest =>
      if Ascii.eqb c zero then EmptyString else String c (print_data rest)
  end.

Fixpoint has_nul (d : krb5_data) : bool :=
  match d with
  | EmptyString => false
  | String c rest => Ascii.eqb c zero || has_nul rest
  end.

(** [snprintf(buf, size, ...)] where the format expands to [s]: at most
    [size - 1] bytes are stored, then the terminator; with [size = 0] the
    buffer is left alone. *)
Definition snprintf (buf : string) (size : nat) (s : string) : string :=
  match size with
  | O => buf
  | S k => substring 0 k s
  end.

(** Well-formed UTF-8 as far as sequence boundaries go: every lead byte is
    followed by as many continuation bytes as it announces, and the string
    does not end inside a sequence.  [pending] counts the continuation
    bytes still due. *)
Fixpoint utf8_sequences (pending : nat) (s : string) : bool :=
  match s with
  | EmptyString => Nat.eqb pending 0
  | String c t =>
      let n := N_of_ascii c in
      match pending with
      | O =>
          if (n <? 128)%N then utf8_sequences 0 t
          else if (194 <=? n)%N && (n <=? 223)%N then utf8_sequences 1 t
          else if (224 <=? n)%N && (n <=? 239)%N then utf8_sequences 2 t
          else if (240 <=? n)%N && (n <=? 244)%N then utf8_sequences 3 t
          else false
      | S k =>
          if (128 <=? n)%N && (n <=? 191)%N then utf8_sequences k t else false
      end
  end.

Definition utf8_well_formed (s : string) : bool := utf8_sequences 0 s.

(** Modelled from the spec: [krb5_realm_compare] belongs to libkrb5, which is
    not among the sources.  Realm names are opaque byte strings compared for
    exact equality, case-sensitive and without normalization. *)
Definition krb5_realm_compare (princ1 princ2 : krb5_principal) : bool :=
  String.eqb (realm princ1) (realm princ2).

(** ** The allowlist *)

(** Lines 109-112 of [xrealmauthz_init]: the names of the profile become
    entries with their lengths precomputed. *)
Definition realm_entries (profile_realm_list : list string) : list realm_entry :=
  map (fun s => {| name := s; length := String.length s |}) profile_realm_list.

Fixpoint realm_scan (entries : list realm_entry) (client_realm : krb5_data) : bool :=
  match entries with
  | [] => false
  | e :: rest =>
      if Nat.eqb (length e) (String.length client_realm)
         && (strncmp (name e) client_realm (String.length client_realm) =? 0)%Z
      then true
      else realm_scan rest client_realm
  end.

Definition is_realm_preapproved (data : option xrealmauthz_data)
  (client_realm : krb5_data) : bool :=
  match data with
  | None => false
  | Some d =>
      match allowed_realms d with
      | None => false
      | Some entries => realm_scan entries client_realm
      end
  end.

Section Plugin.

(** The database entry of a principal is the host's. *)
Context {krb5_db_entry : Type}.

(** ** The host *)

Record krb5_context := {
  krb5_db_get_principal :
    krb5_principal -> krb5_error_code * option krb5_db_entry;
  krb5_dbe_get_string :
    option krb5_db_entry -> string -> krb5_error_code * option string;
  krb5_unparse_name :
    krb5_principal -> krb5_error_code * string;
  krb5_unparse_name_flags :
    krb5_principal -> Z -> krb5_error_code * string
}.

Inductive event :=
| ev_db_get_principal (p : krb5_principal)
| ev_dbe_get_string (e : option krb5_db_entry) (key : string)
| ev_db_free_principal (e : option krb5_db_entry)
| ev_unparse_name (p : krb5_principal)
| ev_unparse_name_flags (p : krb5_principal) (flags : Z)
| ev_com_err (msg : string).

(** The state a call runs in: the static [denial_msg] of
    [check_cross_realm_auth] and the calls made to the host so far. *)
Record kdc_state := {
  denial_msg : string;
  calls : list event
}.

(** At process start the static buffer is zeroed. *)
Definition kdc_start : kdc_state := {| denial_msg := ""; calls := [] |}.

Definition M (A : Type) : Type := kdc_state -> A * kdc_state.

Definition ret {A} (a : A) : M A := fun st => (a, st).

Definition bind {A B} (m : M A) (k : A -> M B) : M B :=
  fun st => let (a, st') := m st in k a st'.

Definition call (e : event) : M unit :=
  fun st => (tt, {| denial_msg := denial_msg st; calls := (calls st ++ [e])%list |}).

Definition store_denial_msg (s : string) : M unit :=
  fun st => (tt, {| denial_msg := s; calls := calls st |}).

Definition load_denial_msg : M string :=
  fun st => (denial_msg st, st).

Notation "x <- m ;; k" := (bind m (fun x => k))
  (at level 61, m at next level, right associativity).
Notation "m ;;; k" := (bind m (fun _ => k))
  (at level 61, right associativity).

(** The string a status pointer designates in a state. *)
Definition status_string (st : kdc_state) (p : status_ptr) : option string :=
  match p with
  | StatusNull => None
  | StatusLiteral s => Some s
  | StatusDenialMsg => Some (denial_msg st)
  end.

Definition db_get_principal (context : krb5_context) (p : krb5_principal)
  : M (krb5_error_code * option krb5_db_entry) :=
  call (ev_db_get_principal p) ;;; ret (krb5_db_get_principal context p).

Definition dbe_get_string (context : krb5_context)
  (e : option krb5_db_entry) (key : string)
  : M (krb5_error_code * option string) :=
  call (ev_dbe_get_string e key) ;;; ret (krb5_dbe_get_string context e key).

Definition db_free_principal (e : option krb5_db_entry) : M unit :=
  call (ev_db_free_principal e).

Definition unparse_name (context : krb5_context) (p : krb5_principal)
  : M (krb5_error_code * string) :=
  call (ev_unparse_name p) ;;; ret (krb5_unparse_name context p).

Definition unparse_name_flags (context : krb5_context) (p : krb5_principal)
  (flags : Z) : M (krb5_error_code * string) :=
  call (ev_unparse_name_flags p flags) ;;;
  ret (krb5_unparse_name_flags context p flags).

Definition com_err (msg : string) : M unit := call (ev_com_err msg).

(** ** The decision *)

(** C's [if (ret)]. *)
Definition failed (rc : krb5_error_code) : bool := negb (Z.eqb rc 0).

Definition is_some {A} (p : option A) : bool :=
  match p with Some _ => true | None => false end.

(** Helper to check if a specified string attribute exists on the
    cross-realm TGT *)
Definition check_cross_realm_tgt_attribute (context : krb5_context)
  (attr_key : string) (tgt_entry : option krb5_db_entry)
  : M (krb5_error_code * bool) :=
  r <- dbe_get_string context tgt_entry attr_key ;;
  let (rc, attr_value) := r in
  ret (rc, Z.eqb rc 0 && is_some attr_value).

(** The [cleanup] label of [check_cross_realm_auth]. *)
Definition cleanup (tgt_entry : option krb5_db_entry) (rc : krb5_error_code)
  (status_out : status_ptr) : M (krb5_error_code * status_ptr) :=
  db_free_principal tgt_entry ;;; ret (rc, status_out).

Definition would_deny_msg (client_princ_str service_princ_str : string)
  (server_realm : krb5_data) : string :=
  "xrealmauthz plugin would deny " ++ client_princ_str ++ " for "
    ++ service_princ_str ++ " from " ++ print_data server_realm.

Definition denied_msg (server_realm : krb5_data) : string :=
  "xrealmauthz plugin denied from " ++ print_data server_realm.

(** Lines 286-323: no attribute allowed the request. *)
Definition deny_or_audit (context : krb5_context) (ticket : krb5_ticket)
  (request : krb5_kdc_req) (enforcing : bool)
  (tgt_entry : option krb5_db_entry) (client_princ_str : option string)
  : M (krb5_error_code * status_ptr) :=
  if negb enforcing then
    (* Get client principal if we don't already have it *)
    c <- match client_princ_str with
         | Some s => ret (0, s)
         | None => unparse_name context (client (enc_part2 ticket))
         end ;;
    let (rc, client_str) := c in
    if failed rc then cleanup tgt_entry rc StatusNull else
    (* Get requested service principal *)
    s <- unparse_name context (request_server request) ;;
    let (rc, service_princ_str) := s in
    if failed rc then cleanup tgt_entry rc StatusNull else
    buf <- load_denial_msg ;;
    store_denial_msg
      (snprintf buf MAX_DENIAL_MSG_LEN
         (would_deny_msg client_str service_princ_str
            (realm (ticket_server ticket)))) ;;;
    msg <- load_denial_msg ;;
    com_err msg ;;;
    cleanup tgt_entry 0 StatusDenialMsg
  else
    (* KDC logging will append client and service principal *)
    buf <- load_denial_msg ;;
    store_denial_msg
      (snprintf buf MAX_DENIAL_MSG_LEN
         (denied_msg (realm (ticket_server ticket)))) ;;;
    cleanup tgt_entry KRB5KDC_ERR_POLICY StatusDenialMsg.

(** Lines 280-323: the principal-scope check on the entry already
    retrieved, then the verdict. *)
Definition check_principal_acl (context : krb5_context) (ticket : krb5_ticket)
  (request : krb5_kdc_req) (enforcing : bool)
  (tgt_entry : option krb5_db_entry) (client_princ_acl : string)
  (client_princ_str : option string) : M (krb5_error_code * status_ptr) :=
  a <- check_cross_realm_tgt_attribute context client_princ_acl tgt_entry ;;
  let (rc, is_allowed) := a in
  if failed rc then cleanup tgt_entry rc StatusNull else
  if negb is_allowed then
    deny_or_audit context ticket request enforcing tgt_entry client_princ_str
  else cleanup tgt_entry rc StatusNull.

(** Line 223: [data ? data->enforcing : TRUE], as the truth value the
    tests of [enforcing] see. *)
Definition enforcing_of (data : option xrealmauthz_data) : bool :=
  match data with
  | Some d => negb (Z.eqb (enforcing d) 0)
  | None => negb (Z.eqb TRUE 0)
  end.

(** Check if cross-realm auth is allowed based on client realm or
    principal *)
Definition check_cross_realm_auth (context : krb5_context)
  (ticket : krb5_ticket) (request : krb5_kdc_req)
  (data : option xrealmauthz_data) : M (krb5_error_code * status_ptr) :=
  let enforcing := enforcing_of data in
  let cl := client (enc_part2 ticket) in
  (* Check pre-approved realms first *)
  if is_realm_preapproved data (realm cl) then ret (0, StatusNull) else
  (* Build ACL name for client realm *)
  let client_realm_acl := ATTR_PREFIX ++ "@" ++ print_data (realm cl) in
  (* Get TGT principal entry once for both checks *)
  g <- db_get_principal context (ticket_server ticket) ;;
  let (rc, tgt_entry) := g in
  if failed rc then
    cleanup tgt_entry rc
      (StatusLiteral
         "xrealmauthz plugin failed to retrieve cross-realm TGT from database")
  else
  (* Check if client realm is allowed *)
  a <- check_cross_realm_tgt_attribute context client_realm_acl tgt_entry ;;
  let (rc, is_allowed) := a in
  if failed rc || is_allowed then cleanup tgt_entry rc StatusNull else
  (* Build principal ACL string handling direct vs transitive trust *)
  if krb5_realm_compare (ticket_server ticket) cl then
    (* direct trust, get bare principal *)
    u <- unparse_name_flags context cl KRB5_PRINCIPAL_UNPARSE_NO_REALM ;;
    let (rc, client_princ_no_realm) := u in
    if failed rc then cleanup tgt_entry rc StatusNull else
    check_principal_acl context ticket request enforcing tgt_entry
      (ATTR_PREFIX ++ client_princ_no_realm) None
  else
    (* transitive trust, get fully qualified principal *)
    u <- unparse_name context cl ;;
    let (rc, client_princ_str) := u in
    if failed rc then cleanup tgt_entry rc StatusNull else
    check_principal_acl context ticket request enforcing tgt_entry
      (ATTR_PREFIX ++ client_princ_str) (Some client_princ_str).

(** The [check_tgs] entry point.  [lifetime_out] and [renew_lifetime_out]
    are the caller's cells, when given, with what they hold; their final
    contents are returned next to the code and [*status_out]. *)
Definition xrealmauthz_check (context : krb5_context)
  (moddata : option xrealmauthz_data) (request : krb5_kdc_req)
  (server : option krb5_db_entry) (ticket : krb5_ticket)
  (auth_indicators : list string)
  (lifetime_out renew_lifetime_out : option krb5_deltat)
  : M (krb5_error_code * status_ptr * option krb5_deltat * option krb5_deltat) :=
  (* Initialize output parameters *)
  let lifetime_out := option_map (fun _ => 0) lifetime_out in
  let renew_lifetime_out := option_map (fun _ => 0) renew_lifetime_out in
  (* Check if this is a cross-realm request by comparing realms *)
  if krb5_realm_compare (request_server request) (client (enc_part2 ticket))
  then ret (0, StatusNull, lifetime_out, renew_lifetime_out)
  else
    r <- check_cross_realm_auth context ticket request moddata ;;
    let (rc, status_out) := r in
    ret (rc, status_out, lifetime_out, renew_lifetime_out).

(** ** Notions the properties are stated with *)

(** A computation that only adds to the calls made before it. *)
Definition appends {A} (m : M A) : Prop :=
  forall st, exists l, calls (snd (m st)) = (calls st ++ l)%list.

(** The contents of the static buffer after a call whose status is [p]. *)
Definition written (p : status_ptr) (new old : string) : string :=
  match p with
  | StatusDenialMsg => new
  | _ => old
  end.

(** The entry of the ticket's server is retrieved as [tgt], the client name
    is unparsed as [s] the way the trust path asks for (without realm when
    the server and client realms of the ticket are the same, fully
    qualified otherwise), and [tgt] has a value neither for the realm-scope
    key, made of the client realm as [%.*s] prints it, nor for the
    principal-scope key. *)
Definition neither_attribute_present (context : krb5_context)
  (ticket : krb5_ticket) (tgt : option krb5_db_entry) (s : string) : Prop :=
  let cl := client (enc_part2 ticket) in
  krb5_db_get_principal context (ticket_server ticket) = (0, tgt)
  /\ krb5_dbe_get_string context tgt ("xr:@" ++ print_data (realm cl)) = (0, None)
  /\ (if krb5_realm_compare (ticket_server ticket) cl
      then krb5_unparse_name_flags context cl KRB5_PRINCIPAL_UNPARSE_NO_REALM
      else krb5_unparse_name context cl) = (0, s)
  /\ krb5_dbe_get_string context tgt ("xr:" ++ s) = (0, None).

End Plugin.

Arguments krb5_context : clear implicits.
Arguments event : clear implicits.
Arguments kdc_state : clear implicits.
Arguments M : clear implicits.
Arguments appends krb5_db_entry {A} m.

(** ** A host to run the plugin on *)

Module Example.

(** A string attribute of an entry: its value, or the code its read fails
    with. *)
Inductive attr :=
| Value (v : string)
| Unreadable (rc : krb5_error_code).

Record entry := {
  princ : krb5_principal;
  strings : list (string * attr)
}.

(** kdb.h *)
Definition KRB5_KDB_NOENTRY : krb5_error_code := -1780008443.
Definition EINVAL : krb5_error_code := 22.

Fixpoint data_eqb (a b : list krb5_data) : bool :=
  match a, b with
  | [], [] => true
  | x :: a', y :: b' => String.eqb x y && data_eqb a' b'
  | _, _ => false
  end.

Definition principal_eqb (p q : krb5_principal) : bool :=
  String.eqb (realm p) (realm q) && data_eqb (data p) (data q).

Fixpoint find_entry (db : list entry) (p : krb5_principal) : option entry :=
  match db with
  | [] => None
  | e :: rest => if principal_eqb (princ e) p then Some e else find_entry rest p
  end.

Fixpoint find_string (l : list (string * attr)) (key : string) : option attr :=
  match l with
  | [] => None
  | (k, a) :: rest => if String.eqb k key then Some a else find_string rest key
  end.

Definition get_principal (db : list entry) (p : krb5_principal)
  : krb5_error_code * option entry :=
  match find_entry db p with
  | Some e => (0, Some e)
  | None => (KRB5_KDB_NOENTRY, None)
  end.

Definition get_string (e : option entry) (key : string)
  : krb5_error_code * option string :=
  match e with
  | None => (EINVAL, None)
  | Some e =>
      match find_string (strings e) key with
      | None => (0, None)
      | Some (Value v) => (0, Some v)
      | Some (Unreadable rc) => (rc, None)
      end
  end.

Fixpoint components (l : list krb5_data) : string :=
  match l with
  | [] => ""
  | [c] => c
  | c :: rest => c ++ "/" ++ components rest
  end.

(** Modelled from the spec: the name unparser of libkrb5, which is not
    among the sources.  A principal is rendered as its name components and,
    unless the realm is left out, "@" and its realm. *)
Definition unparse_flags (p : krb5_principal) (flags : Z)
  : krb5_error_code * string :=
  if Z.testbit flags 1 then (0, components (data p))
  else (0, components (data p) ++ "@" ++ realm p).

Definition host (db : list entry) : krb5_context entry := {|
  krb5_db_get_principal := get_principal db;
  krb5_dbe_get_string := get_string;
  krb5_unparse_name := fun p => unparse_flags p 0;
  krb5_unparse_name_flags := unparse_flags
|}.

Definition princ_of (names : list string) (r : string) : krb5_principal :=
  {| realm := r; data := names |}.

Definition mk_ticket (cl srv : krb5_principal) : krb5_ticket :=
  {| ticket_server := srv; enc_part2 := {| client := cl |} |}.

Definition mk_data (enf : Z) (realms : list string) : xrealmauthz_data :=
  {| enforcing := enf; allowed_realms := Some (realm_entries realms) |}.

Definition start : kdc_state entry := kdc_start.

(** alice@R1 asks realm R2 for host/www@R2. *)
Definition alice := princ_of ["alice"] "R1".
Definition bob := princ_of ["bob"] "R1".
Definition www := {| request_server := princ_of ["host"; "www"] "R2" |}.

(** Direct hop: the ticket is from R1's own ticket-granting principal. *)
Definition tgt_direct := princ_of ["krbtgt"; "R2"] "R1".
(** Transitive path: the ticket was issued by the intermediate realm R3. *)
Definition tgt_transit := princ_of ["krbtgt"; "R2"] "R3".

Definition entry_with (tgt : krb5_principal) (l : list (string * attr)) : entry :=
  {| princ := tgt; strings := l |}.

Definition db_with (tgt : krb5_principal) (l : list (string * attr)) : list entry :=
  [entry_with tgt l].

Definition enforce : option xrealmauthz_data := Some (mk_data 1 []).
Definition audit : option xrealmauthz_data := Some (mk_data 0 []).

Fixpoint replicate (n : nat) (s : string) : string :=
  match n with
  | O => ""
  | S k => s ++ replicate k s
  end.

(** A server realm of 225 bytes: one more than fits after the 31 bytes of
    "xrealmauthz plugin denied from ". *)
Definition long_realm : string := replicate 225 "A".
Definition tgt_long := princ_of ["krbtgt"; "R2"] long_realm.

Definition long_denial :=
  check_cross_realm_auth (host (db_with tgt_long []))
    (mk_ticket alice tgt_long) www enforce start.

(** A requested service whose name alone is longer than the buffer. *)
Definition long_service :=
  {| request_server := princ_of ["host"; replicate 300 "w"] "R2" |}.

Definition long_audit :=
  check_cross_realm_auth (host (db_with tgt_direct []))
    (mk_ticket alice tgt_direct) long_service audit start.

(** U+00E9 in UTF-8: the bytes C3 A9. *)
Definition e_acute : string :=
  String (ascii_of_nat 195) (String (ascii_of_nat 169) EmptyString).

(** A client whose name is 113 times that letter: 226 bytes, after the 30
    bytes of "xrealmauthz plugin would deny ". *)
Definition accented := princ_of [replicate 113 e_acute] "R1".

Definition accented_message : string :=
  "xrealmauthz plugin would deny " ++ replicate 113 e_acute
    ++ "@R1 for host/www@R2 from R1".

Definition accented_audit :=
  check_cross_realm_auth (host (db_with tgt_direct []))
    (mk_ticket accented tgt_direct) www audit start.

(** Two calls in a row, for alice and then for bob. *)
Definition alice_audit :=
  check_cross_realm_auth (host (db_with tgt_direct []))
    (mk_ticket alice tgt_direct) www audit start.

Definition bob_audit_after_alice :=
  check_cross_realm_auth (host (db_with tgt_direct []))
    (mk_ticket bob tgt_direct) www audit (snd alice_audit).

(** A client whose realm has a NUL byte in it: R1, NUL, X. *)
Definition nul_realm : string := "R1" ++ String zero "X".
Definition nul_client := princ_of ["alice"] nul_realm.

Definition nul_call :=
  check_cross_realm_auth
    (host (db_with tgt_transit [("xr:@R1", Value "")]))
    (mk_ticket nul_client tgt_transit) www enforce start.

End Example.

(** ** Loading and unloading the module *)

(** prof_err.h *)
Definition PROF_NO_RELATION : krb5_error_code := -1429577725.

(** [(int)n] for [n] a [size_t]: the low 32 bits, signed. *)
Definition int_of_size_t (n : nat) : Z :=
  (Z.of_nat n + 2 ^ 31) mod 2 ^ 32 - 2 ^ 31.

(** [%d] *)
Definition decimal (z : Z) : string := NilZero.string_of_int (Z.to_int z).

(** What [free] and [profile_free_list] are called on. *)
Inductive release :=
| free_name (s : string)          (* free((char * )allowed_realms[i].name) *)
| free_allowed_realms             (* free(moddata->allowed_realms) *)
| free_moddata                    (* free(moddata) *)
| free_profile_realm_list         (* free(profile_realm_list): the array alone *)
| profile_free_list (l : list string).

(** Lines 128-134 and 153-160: the names the module took ownership of,
    then the array of entries, then the module data. *)
Definition release_moddata (d : xrealmauthz_data) : list release :=
  (match allowed_realms d with
   | Some entries =>
       (map (fun e => free_name (name e)) entries ++ [free_allowed_realms])%list
   | None => []
   end ++ [free_moddata])%list.

Definition xrealmauthz_fini (data : option xrealmauthz_data)
  : krb5_error_code * list release :=
  match data with
  | Some moddata => (0, release_moddata moddata)
  | None => (0, [])
  end.

Section Init.

(** The handle of a profile is the profile library's. *)
Context {profile_t : Type}.

(** The profile library.  [profile_get_boolean] yields its code and what it
    stored through its last argument, if it stored anything. *)
Record profile_lib := {
  krb5_get_profile : krb5_error_code * option profile_t;
  profile_get_boolean :
    option profile_t -> string -> string -> option string -> Z ->
    krb5_error_code * option Z;
  profile_get_values :
    option profile_t -> list string ->
    krb5_error_code * option (list string)
}.

Inductive init_event :=
| ev_krb5_get_profile
| ev_profile_get_boolean (profile : option profile_t) (name subname : string)
    (subsubname : option string) (def_val : Z)
| ev_profile_get_values (profile : option profile_t) (names : list string)
| ev_release (r : release)
| ev_profile_release (profile : profile_t)
| ev_loaded (msg : string).

Definition loaded_msg (enforcing : Z) (num_allowed_realms : nat) : string :=
  "xrealmauthz cross-realm authorization plugin loaded (enforcing mode: "
    ++ (if Z.eqb enforcing 0 then "disabled" else "enabled")
    ++ ", pre-approved realms: " ++ decimal (int_of_size_t num_allowed_realms)
    ++ ")".

(** The [cleanup] label of [xrealmauthz_init]. *)
Definition init_cleanup (rc : krb5_error_code)
  (moddata : option xrealmauthz_data)
  (profile_realm_list : option (list string)) (profile : option profile_t)
  : krb5_error_code * option xrealmauthz_data * list init_event :=
  (rc,
   if failed rc then None else moddata,
   ((if failed rc then
       match moddata with
       | Some d => map ev_release (release_moddata d)
       | None => []
       end
     else [])
    (* If we've failed before taking ownership of the strings, free them
       properly *)
    ++ match profile_realm_list with
       | Some l => [ev_release (profile_free_list l)]
       | None => []
       end
    ++ match profile with
       | Some p => [ev_profile_release p]
       | None => []
       end)%list).

Definition and_then (before : list init_event)
  (r : krb5_error_code * option xrealmauthz_data * list init_event)
  : krb5_error_code * option xrealmauthz_data * list init_event :=
  let '(rc, data_out, events) := r in (rc, data_out, (before ++ events)%list).

(** Loads the module from the profile: the code, [*data_out] and what was
    asked and released on the way.  This is the load on a heap that grants
    every request: the two [calloc] calls give their zeroed memory.
    [xrealmauthz_init_alloc] below has their ENOMEM exits. *)
Definition xrealmauthz_init (lib : profile_lib)
  : krb5_error_code * option xrealmauthz_data * list init_event :=
  let section := ["kdcdefaults"; "xrealmauthz_allowed_realms"] in
  let (rc, profile) := krb5_get_profile lib in
  if failed rc then and_then [ev_krb5_get_profile] (init_cleanup rc None None profile)
  else
  (* Check if enforcing mode is disabled in config, default to TRUE *)
  let enforcing :=
    match snd (profile_get_boolean lib profile "kdcdefaults"
                 "xrealmauthz_enforcing" None TRUE) with
    | Some v => v
    | None => 1
    end in
  let calloced := {| enforcing := 0; allowed_realms := None |} in
  (* Get array of allowed realms from config *)
  let (rc, profile_realm_list) := profile_get_values lib profile section in
  (* No allowed realms configured, this is OK *)
  let rc := if Z.eqb rc PROF_NO_RELATION then 0 else rc in
  let asked :=
    [ev_krb5_get_profile;
     ev_profile_get_boolean profile "kdcdefaults" "xrealmauthz_enforcing"
       None TRUE;
     ev_profile_get_values profile section] in
  if failed rc then
    and_then asked (init_cleanup rc (Some calloced) profile_realm_list profile)
  else
  (* Count and allocate realm entries; transfer ownership of the strings
     and precompute lengths *)
  let moddata :=
    {| enforcing := enforcing;
       allowed_realms := option_map realm_entries profile_realm_list |} in
  let num_allowed_realms :=
    match profile_realm_list with
    | Some l => List.length l
    | None => O
    end in
  and_then
    (asked
     ++ match profile_realm_list with
        | Some _ => [ev_release free_profile_realm_list]
        | None => []
        end
     ++ [ev_loaded (loaded_msg enforcing num_allowed_realms)])%list
    (init_cleanup rc (Some moddata) None profile).

(** The releases among the events of a load, and the profiles released. *)
Fixpoint releases (events : list init_event) : list release :=
  match events with
  | [] => []
  | ev_release r :: rest => r :: releases rest
  | _ :: rest => releases rest
  end.

Fixpoint profiles_released (events : list init_event) : list profile_t :=
  match events with
  | [] => []
  | ev_profile_release p :: rest => p :: profiles_released rest
  | _ :: rest => profiles_released rest
  end.

Fixpoint loaded_messages (events : list init_event) : list string :=
  match events with
  | [] => []
  | ev_loaded msg :: rest => msg :: loaded_messages rest
  | _ :: rest => loaded_messages rest
  end.

End Init.

Arguments profile_lib : clear implicits.
Arguments init_event : clear implicits.

(** A profile to load the module from. *)
Module ExampleProfile.

(** What the profile holds for the two relations the module asks for; a
    code in place of the values makes the query fail with it. *)
Record profile := {
  xrealmauthz_enforcing : option Z;
  xrealmauthz_allowed_realms : krb5_error_code + option (list string)
}.

Definition get_boolean (p : option profile) (name subname : string)
  (subsubname : option string) (def_val : Z) : krb5_error_code * option Z :=
  match p with
  | Some p =>
      match xrealmauthz_enforcing p with
      | Some v => (0, Some v)
      | None => (0, Some def_val)
      end
  | None => (0, Some def_val)
  end.

Definition get_values (p : option profile) (names : list string)
  : krb5_error_code * option (list string) :=
  match p with
  | Some p =>
      match xrealmauthz_allowed_realms p with
      | inl rc => (rc, None)
      | inr (Some l) => (0, Some l)
      | inr None => (PROF_NO_RELATION, None)
      end
  | None => (PROF_NO_RELATION, None)
  end.

Definition lib_of (p : profile) : profile_lib profile := {|
  krb5_get_profile := (0, Some p);
  profile_get_boolean := get_boolean;
  profile_get_values := get_values
|}.

(** A library that cannot produce the profile. *)
Definition no_profile (rc : krb5_error_code) : profile_lib profile := {|
  krb5_get_profile := (rc, None);
  profile_get_boolean := get_boolean;
  profile_get_values := get_values
|}.

Definition two_realms : profile :=
  {| xrealmauthz_enforcing := None;
     xrealmauthz_allowed_realms := inr (Some ["R0"; "R1"]) |}.

Definition audit_only : profile :=
  {| xrealmauthz_enforcing := Some 0;
     xrealmauthz_allowed_realms := inr None |}.

Definition unreadable : profile :=
  {| xrealmauthz_enforcing := None;
     xrealmauthz_allowed_realms := inl 5 |}.

End ExampleProfile.

(** ** Notions for the calls of a decision *)

Section Traces.

Context {krb5_db_entry : Type}.

(** What a decision logged through [com_err]. *)
Fixpoint com_err_messages (l : list (event krb5_db_entry)) : list string :=
  match l with
  | [] => []
  | ev_com_err msg :: rest => msg :: com_err_messages rest
  | _ :: rest => com_err_messages rest
  end.

(** The keys of the attribute reads among the calls. *)
Fixpoint keys_read (l : list (event krb5_db_entry)) : list string :=
  match l with
  | [] => []
  | ev_dbe_get_string _ key :: rest => key :: keys_read rest
  | _ :: rest => keys_read rest
  end.


(** [rc] is the code of an attribute read or of an unparsing that
    failed. *)
Definition read_or_unparse_failed (context : krb5_context krb5_db_entry)
  (rc : krb5_error_code) : Prop :=
  rc <> 0
  /\ ((exists e key v, krb5_dbe_get_string context e key = (rc, v))
      \/ (exists p s, krb5_unparse_name context p = (rc, s))
      \/ (exists p flags s,
            krb5_unparse_name_flags context p flags = (rc, s))).

Definition is_denial_msg (p : status_ptr) : bool :=
  match p with
  | StatusDenialMsg => true
  | _ => false
  end.

End Traces.

(** The message of a call that ended with the code [rc] and the static
    buffer as its status: what the buffer then holds. *)
Definition denial_message {krb5_db_entry : Type}
  (context : krb5_context krb5_db_entry) (ticket : krb5_ticket)
  (request : krb5_kdc_req) (rc : krb5_error_code) (s : string) : Prop :=
  (rc = KRB5KDC_ERR_POLICY
   /\ s = substring 0 255
            ("xrealmauthz plugin denied from "
               ++ print_data (realm (ticket_server ticket))))
  \/ (rc = 0
      /\ exists cs ss : string,
           krb5_unparse_name context (client (enc_part2 ticket)) = (0, cs)
           /\ krb5_unparse_name context (request_server request) = (0, ss)
           /\ s = substring 0 255
                    ("xrealmauthz plugin would deny " ++ cs ++ " for " ++ ss
                       ++ " from "
                       ++ print_data (realm (ticket_server ticket)))).

(** ** The decision and the load on a heap that can refuse *)

(** errno.h *)
Definition ENOMEM : krb5_error_code := 12.

(** [heap n] tells whether the allocation number [n] that a function asks
    for itself, counted from 0 in the order of its text, is granted. *)
Definition asprintf (heap : nat -> bool) (n : nat) (s : string)
  : option string :=
  if heap n then Some s else None.

Definition granting : nat -> bool := fun _ => true.

Section Heap.

Context {krb5_db_entry : Type}.

(** A call of the decision: one to the host as before, or the release of a
    string, named by the pointer it is given. *)
Inductive heap_call :=
| on_host (e : event krb5_db_entry)
| call_free (p : option string)
| call_krb5_free_unparsed_name (p : option string).

Record heap_state := {
  buffer : string;        (* the static denial_msg *)
  trace : list heap_call
}.

Definition HM (A : Type) : Type := heap_state -> A * heap_state.

Definition hret {A} (a : A) : HM A := fun h => (a, h).

Definition hbind {A B} (m : HM A) (k : A -> HM B) : HM B :=
  fun h => let (a, h') := m h in k a h'.

Definition record (c : heap_call) : HM unit :=
  fun h => (tt, {| buffer := buffer h; trace := (trace h ++ [c])%list |}).

(** Runs a step of the decision as modelled above: on the buffer, with its
    calls to the host added to the trace. *)
Definition lift {A} (m : M krb5_db_entry A) : HM A :=
  fun h =>
    let (a, st) := m {| denial_msg := buffer h; calls := [] |} in
    (a, {| buffer := denial_msg st;
           trace := (trace h ++ map on_host (calls st))%list |}).

Notation "x <- m ;; k" := (hbind m (fun x => k))
  (at level 61, m at next level, right associativity).
Notation "m ;;; k" := (hbind m (fun _ => k))
  (at level 61, right associativity).

(** The [cleanup] label of [check_cross_realm_auth], lines 325-332, with
    the locals it releases. *)
Definition cleanup_alloc (tgt_entry : option krb5_db_entry)
  (client_realm_acl client_princ_acl client_princ_str client_princ_no_realm
     service_princ_str : option string)
  (rc : krb5_error_code) (status_out : status_ptr)
  : HM (krb5_error_code * status_ptr) :=
  record (on_host (ev_db_free_principal tgt_entry)) ;;;
  record (call_free client_realm_acl) ;;;
  record (call_free client_princ_acl) ;;;
  record (call_krb5_free_unparsed_name client_princ_str) ;;;
  record (call_krb5_free_unparsed_name client_princ_no_realm) ;;;
  record (call_krb5_free_unparsed_name service_princ_str) ;;;
  hret (rc, status_out).

(** Lines 286-323. *)
Definition deny_or_audit_alloc (context : krb5_context krb5_db_entry)
  (ticket : krb5_ticket) (request : krb5_kdc_req) (enforcing : bool)
  (tgt_entry : option krb5_db_entry)
  (client_realm_acl client_princ_acl client_princ_str client_princ_no_realm
     : option string)
  : HM (krb5_error_code * status_ptr) :=
  if negb enforcing then
    (* Get client principal if we don't already have it *)
    c <- match client_princ_str with
         | Some s => hret (0, s)
         | None => lift (unparse_name context (client (enc_part2 ticket)))
         end ;;
    let (rc, client_str) := c in
    if failed rc then
      cleanup_alloc tgt_entry client_realm_acl client_princ_acl
        client_princ_str client_princ_no_realm None rc StatusNull
    else
    (* Get requested service principal *)
    s <- lift (unparse_name context (request_server request)) ;;
    let (rc, service_princ_str) := s in
    if failed rc then
      cleanup_alloc tgt_entry client_realm_acl client_princ_acl
        (Some client_str) client_princ_no_realm None rc StatusNull
    else
    buf <- lift load_denial_msg ;;
    lift (store_denial_msg
            (snprintf buf MAX_DENIAL_MSG_LEN
               (would_deny_msg client_str service_princ_str
                  (realm (ticket_server ticket))))) ;;;
    msg <- lift load_denial_msg ;;
    lift (com_err msg) ;;;
    cleanup_alloc tgt_entry client_realm_acl client_princ_acl
      (Some client_str) client_princ_no_realm (Some service_princ_str)
      0 StatusDenialMsg
  else
    (* KDC logging will append client and service principal *)
    buf <- lift load_denial_msg ;;
    lift (store_denial_msg
            (snprintf buf MAX_DENIAL_MSG_LEN
               (denied_msg (realm (ticket_server ticket))))) ;;;
    cleanup_alloc tgt_entry client_realm_acl client_princ_acl
      client_princ_str client_princ_no_realm None
      KRB5KDC_ERR_POLICY StatusDenialMsg.

(** Lines 280-323. *)
Definition check_principal_acl_alloc (context : krb5_context krb5_db_entry)
  (ticket : krb5_ticket) (request : krb5_kdc_req) (enforcing : bool)
  (tgt_entry : option krb5_db_entry) (client_realm_acl : option string)
  (client_princ_acl : string)
  (client_princ_str client_princ_no_realm : option string)
  : HM (krb5_error_code * status_ptr) :=
  a <- lift (check_cross_realm_tgt_attribute context client_princ_acl
               tgt_entry) ;;
  let (rc, is_allowed) := a in
  if failed rc then
    cleanup_alloc tgt_entry client_realm_acl (Some client_princ_acl)
      client_princ_str client_princ_no_realm None rc StatusNull
  else
  if negb is_allowed then
    deny_or_audit_alloc context ticket request enforcing tgt_entry
      client_realm_acl (Some client_princ_acl) client_princ_str
      client_princ_no_realm
  else
    cleanup_alloc tgt_entry client_realm_acl (Some client_princ_acl)
      client_princ_str client_princ_no_realm None rc StatusNull.

(** [check_cross_realm_auth] with its three ENOMEM exits and its whole
    cleanup block. *)
Definition check_cross_realm_auth_alloc (heap : nat -> bool)
  (context : krb5_context krb5_db_entry) (ticket : krb5_ticket)
  (request : krb5_kdc_req) (data : option xrealmauthz_data)
  : HM (krb5_error_code * status_ptr) :=
  let enforcing := enforcing_of data in
  let cl := client (enc_part2 ticket) in
  (* Check pre-approved realms first *)
  if is_realm_preapproved data (realm cl) then hret (0, StatusNull) else
  (* Build ACL name for client realm *)
  match asprintf heap 0 (ATTR_PREFIX ++ "@" ++ print_data (realm cl)) with
  | None => cleanup_alloc None None None None None None ENOMEM StatusNull
  | Some client_realm_acl =>
  (* Get TGT principal entry once for both checks *)
  g <- lift (db_get_principal context (ticket_server ticket)) ;;
  let (rc, tgt_entry) := g in
  if failed rc then
    cleanup_alloc tgt_entry (Some client_realm_acl) None None None None rc
      (StatusLiteral
         "xrealmauthz plugin failed to retrieve cross-realm TGT from database")
  else
  (* Check if client realm is allowed *)
  a <- lift (check_cross_realm_tgt_attribute context client_realm_acl
               tgt_entry) ;;
  let (rc, is_allowed) := a in
  if failed rc || is_allowed then
    cleanup_alloc tgt_entry (Some client_realm_acl) None None None None rc
      StatusNull
  else
  (* Build principal ACL string handling direct vs transitive trust *)
  if krb5_realm_compare (ticket_server ticket) cl then
    (* direct trust, get bare principal *)
    u <- lift (unparse_name_flags context cl
                 KRB5_PRINCIPAL_UNPARSE_NO_REALM) ;;
    let (rc, client_princ_no_realm) := u in
    if failed rc then
      cleanup_alloc tgt_entry (Some client_realm_acl) None None None None rc
        StatusNull
    else
    match asprintf heap 1 (ATTR_PREFIX ++ client_princ_no_realm) with
    | None =>
        cleanup_alloc tgt_entry (Some client_realm_acl) None None
          (Some client_princ_no_realm) None ENOMEM StatusNull
    | Some client_princ_acl =>
        check_principal_acl_alloc context ticket request enforcing tgt_entry
          (Some client_realm_acl) client_princ_acl None
          (Some client_princ_no_realm)
    end
  else
    (* transitive trust, get fully qualified principal *)
    u <- lift (unparse_name context cl) ;;
    let (rc, client_princ_str) := u in
    if failed rc then
      cleanup_alloc tgt_entry (Some client_realm_acl) None None None None rc
        StatusNull
    else
    match asprintf heap 1 (ATTR_PREFIX ++ client_princ_str) with
    | None =>
        cleanup_alloc tgt_entry (Some client_realm_acl) None
          (Some client_princ_str) None None ENOMEM StatusNull
    | Some client_princ_acl =>
        check_principal_acl_alloc context ticket request enforcing tgt_entry
          (Some client_realm_acl) client_princ_acl (Some client_princ_str)
          None
    end
  end.

(** The calls to the host among the calls of a decision. *)
Fixpoint host_calls (l : list heap_call) : list (event krb5_db_entry) :=
  match l with
  | [] => []
  | on_host e :: rest => e :: host_calls rest
  | _ :: rest => host_calls rest
  end.


End Heap.

Arguments heap_call : clear implicits.
Arguments heap_state : clear implicits.
Arguments HM : clear implicits.

Section InitHeap.

Context {profile_t : Type}.

(** [xrealmauthz_init] with the ENOMEM exits of its two [calloc] calls:
    number 0 for the module data, number 1 for the array of entries. *)
Definition xrealmauthz_init_alloc (heap : nat -> bool)
  (lib : profile_lib profile_t)
  : krb5_error_code * option xrealmauthz_data * list (init_event profile_t) :=
  let section := ["kdcdefaults"; "xrealmauthz_allowed_realms"] in
  let (rc, profile) := krb5_get_profile lib in
  if failed rc then
    and_then [ev_krb5_get_profile] (init_cleanup rc None None profile)
  else
  (* Check if enforcing mode is disabled in config, default to TRUE *)
  let enforcing :=
    match snd (profile_get_boolean lib profile "kdcdefaults"
                 "xrealmauthz_enforcing" None TRUE) with
    | Some v => v
    | None => 1
    end in
  if negb (heap O) then
    and_then
      [ev_krb5_get_profile;
       ev_profile_get_boolean profile "kdcdefaults" "xrealmauthz_enforcing"
         None TRUE]
      (init_cleanup ENOMEM None None profile)
  else
  let calloced := {| enforcing := 0; allowed_realms := None |} in
  (* Get array of allowed realms from config *)
  let (rc, profile_realm_list) := profile_get_values lib profile section in
  (* No allowed realms configured, this is OK *)
  let rc := if Z.eqb rc PROF_NO_RELATION then 0 else rc in
  let asked :=
    [ev_krb5_get_profile;
     ev_profile_get_boolean profile "kdcdefaults" "xrealmauthz_enforcing"
       None TRUE;
     ev_profile_get_values profile section] in
  if failed rc then
    and_then asked (init_cleanup rc (Some calloced) profile_realm_list profile)
  else
  (* Count and allocate realm entries *)
  if is_some profile_realm_list && negb (heap 1%nat) then
    and_then asked
      (init_cleanup ENOMEM (Some calloced) profile_realm_list profile)
  else
  (* Transfer ownership of the strings and precompute lengths *)
  let moddata :=
    {| enforcing := enforcing;
       allowed_realms := option_map realm_entries profile_realm_list |} in
  let num_allowed_realms :=
    match profile_realm_list with
    | Some l => List.length l
    | None => O
    end in
  and_then
    (asked
     ++ match profile_realm_list with
        | Some _ => [ev_release free_profile_realm_list]
        | None => []
        end
     ++ [ev_loaded (loaded_msg enforcing num_allowed_realms)])%list
    (init_cleanup rc (Some moddata) None profile).

End InitHeap.

(** ** Strings *)

Lemma code_diff (c1 c2 : ascii) : code c1 - code c2 = 0 -> c1 = c2.
Proof.
  unfold code. intros H.
  assert (E : N_of_ascii c1 = N_of_ascii c2) by lia.
  rewrite <- (ascii_N_embedding c1), <- (ascii_N_embedding c2).
  now rewrite E.
Qed.

Lemma strncmp_refl (s : string) : forall n, strncmp s s n = 0.
Proof.
  induction s as [|c s IH]; intros [|n]; simpl; trivial.
  rewrite Ascii.eqb_refl. apply IH.
Qed.

Lemma strncmp_eq (s1 : string) : forall s2,
  String.length s1 = String.length s2 ->
  strncmp s1 s2 (String.length s2) = 0 -> s1 = s2.
Proof.
  induction s1 as [|c1 t1 IH]; intros [|c2 t2]; simpl; try discriminate; trivial.
  intros Hlen. injection Hlen as Hlen.
  destruct (Ascii.eqb c1 c2) eqn:E.
  - apply Ascii.eqb_eq in E. subst c2. intros H. f_equal. now apply IH.
  - intros H. apply code_diff in H. subst c2.
    rewrite Ascii.eqb_refl in E. discriminate.
Qed.

Lemma print_data_whole (d : krb5_data) :
  has_nul d = false -> print_data d = d.
Proof.
  induction d as [|c d IH]; simpl; trivial.
  destruct (Ascii.eqb c zero); simpl; [discriminate|].
  intros H. now rewrite IH.
Qed.

Lemma length_substring (s : string) : forall n,
  String.length (substring 0 n s) = Nat.min n (String.length s).
Proof.
  induction s as [|c s IH]; intros [|n]; simpl; trivial.
  now rewrite IH.
Qed.

Lemma substring_all (s : string) : forall n,
  (String.length s <= n)%nat -> substring 0 n s = s.
Proof.
  induction s as [|c s IH]; intros [|n]; simpl; trivial.
  - lia.
  - intros H. f_equal. apply IH. lia.
Qed.

Lemma snprintf_length (buf s : string) (size : nat) :
  (String.length (snprintf buf (S size) s) <= size)%nat.
Proof.
  unfold snprintf. rewrite length_substring. apply Nat.le_min_l.
Qed.

Lemma snprintf_in_buffer (buf s : string) :
  (String.length (snprintf buf MAX_DENIAL_MSG_LEN s) < MAX_DENIAL_MSG_LEN)%nat.
Proof.
  apply Nat.lt_succ_r. apply (snprintf_length buf s 255).
Qed.

(** ** The allowlist scan *)

Lemma realm_scan_match (entries : list realm_entry) (r : krb5_data) :
  (exists e, In e entries /\ length e = String.length r /\ name e = r) ->
  realm_scan entries r = true.
Proof.
  intros (e & Hin & Hlen & Hname).
  induction entries as [|e' rest IH]; simpl in *; [contradiction|].
  destruct Hin as [-> | Hin].
  - rewrite Hlen, Hname, Nat.eqb_refl, strncmp_refl. reflexivity.
  - rewrite (IH Hin). now destruct (_ && _).
Qed.

Lemma realm_scan_entries (names : list string) (r : krb5_data) :
  realm_scan (realm_entries names) r = true <-> In r names.
Proof.
  induction names as [|n rest IH]; simpl.
  - split; [discriminate | contradiction].
  - destruct (Nat.eqb (String.length n) (String.length r)) eqn:El; simpl.
    + apply Nat.eqb_eq in El.
      destruct (Z.eqb_spec (strncmp n r (String.length r)) 0) as [E0|N0].
      * split; trivial. intros _. left. now apply strncmp_eq.
      * rewrite IH. split; [now right|].
        intros [-> | H]; trivial. now rewrite strncmp_refl in N0.
    + rewrite IH. split; [now right|].
      intros [-> | H]; trivial. now rewrite Nat.eqb_refl in El.
Qed.

(** ** Properties of the decision *)

Section Properties.

Context {krb5_db_entry : Type}.

Implicit Types (context : krb5_context krb5_db_entry)
  (st : kdc_state krb5_db_entry) (tgt : option krb5_db_entry)
  (ticket : krb5_ticket) (request : krb5_kdc_req)
  (data : option xrealmauthz_data).

Lemma failed_nonzero (rc : krb5_error_code) : rc <> 0 -> failed rc = true.
Proof.
  intros H. unfold failed. now destruct (Z.eqb_spec rc 0).
Qed.

Lemma failed_true (rc : krb5_error_code) : failed rc = true -> rc <> 0.
Proof.
  unfold failed. now destruct (Z.eqb_spec rc 0).
Qed.

Lemma failed_false (rc : krb5_error_code) : failed rc = false -> rc = 0.
Proof.
  unfold failed. now destruct (Z.eqb_spec rc 0).
Qed.

(** *** Calls are only ever added *)

Lemma appends_ret {A} (a : A) : appends krb5_db_entry (ret a).
Proof. intros st. exists []. cbn. now rewrite app_nil_r. Qed.

Lemma appends_call (e : event krb5_db_entry) :
  appends krb5_db_entry (call e).
Proof. intros st. now exists [e]. Qed.

Lemma appends_store (s : string) :
  appends krb5_db_entry (store_denial_msg s).
Proof. intros st. exists []. cbn. now rewrite app_nil_r. Qed.

Lemma appends_load : appends krb5_db_entry load_denial_msg.
Proof. intros st. exists []. cbn. now rewrite app_nil_r. Qed.

Lemma appends_bind {A B} (m : M krb5_db_entry A) (k : A -> M krb5_db_entry B) :
  appends krb5_db_entry m -> (forall a, appends krb5_db_entry (k a)) ->
  appends krb5_db_entry (bind m k).
Proof.
  intros Hm Hk st. unfold bind.
  destruct (Hm st) as [l1 E1]. destruct (m st) as [a st1]. cbn in E1.
  destruct (Hk a st1) as [l2 E2]. exists (l1 ++ l2)%list.
  now rewrite E2, E1, app_assoc.
Qed.

Ltac appends_step :=
  first
    [ apply appends_ret | apply appends_call | apply appends_store
    | apply appends_load | apply appends_bind
    | match goal with
      | |- forall _, _ => intro
      | |- appends _ (if ?b then _ else _) => destruct b
      | |- appends _ (let (_, _) := ?p in _) => destruct p
      | |- appends _ (match ?o with Some _ => _ | None => _ end) => destruct o
      end ].

Ltac appends_all := repeat appends_step.

Lemma deny_or_audit_appends context ticket request (enf : bool) tgt
  (client_princ_str : option string) :
  appends krb5_db_entry
    (deny_or_audit context ticket request enf tgt client_princ_str).
Proof.
  unfold deny_or_audit, cleanup, unparse_name, com_err, db_free_principal.
  appends_all.
Qed.

Lemma check_principal_acl_appends context ticket request (enf : bool) tgt
  (acl : string) (client_princ_str : option string) :
  appends krb5_db_entry
    (check_principal_acl context ticket request enf tgt acl client_princ_str).
Proof.
  unfold check_principal_acl, check_cross_realm_tgt_attribute, cleanup,
    dbe_get_string, db_free_principal.
  appends_all; apply deny_or_audit_appends.
Qed.

(** Unfolds the calls to the host and the steps of the monad. *)
Ltac host_calls :=
  unfold check_cross_realm_tgt_attribute, cleanup, db_get_principal,
    dbe_get_string, db_free_principal, unparse_name, unparse_name_flags,
    com_err, load_denial_msg, store_denial_msg, call, bind, ret.

Ltac tidy := cbn; rewrite <- ?app_assoc; cbn.

Ltac extended := tidy; eexists; reflexivity.

(** Replaces the calls of a pending principal-scope check by the calls
    before it and a list added to them. *)
Ltac principal_acl_calls :=
  match goal with
  | |- context [check_principal_acl ?c ?t ?r ?e ?g ?a ?s ?st] =>
      let l := fresh "l" in
      let E := fresh "E" in
      destruct (check_principal_acl_appends c t r e g a s st) as [l E];
      rewrite E
  end.

Local Arguments check_principal_acl : simpl never.
Local Arguments deny_or_audit : simpl never.
Local Arguments snprintf : simpl never.
Local Arguments substring : simpl never.
Local Arguments denied_msg : simpl never.
Local Arguments would_deny_msg : simpl never.

(** The call as far as the first attribute read. *)
Lemma check_cross_realm_auth_fetched context ticket request data st tgt :
  is_realm_preapproved data (realm (client (enc_part2 ticket))) = false ->
  krb5_db_get_principal context (ticket_server ticket) = (0, tgt) ->
  exists rest,
    calls (snd (check_cross_realm_auth context ticket request data st))
    = (calls st ++ ev_db_get_principal (ticket_server ticket)
         :: ev_dbe_get_string tgt
              ("xr:@" ++ print_data (realm (client (enc_part2 ticket)))) :: rest)%list.
Proof.
  intros Hpre Hget. unfold check_cross_realm_auth. rewrite Hpre.
  host_calls. rewrite Hget. cbn.
  destruct (krb5_dbe_get_string context tgt _) as [rc v].
  destruct (failed rc || _); [extended|].
  destruct (krb5_realm_compare _ _).
  - destruct (krb5_unparse_name_flags context _ _) as [rc1 s1].
    destruct (failed rc1); [extended|].
    principal_acl_calls. extended.
  - destruct (krb5_unparse_name context _) as [rc1 s1].
    destruct (failed rc1); [extended|].
    principal_acl_calls. extended.
Qed.

(** C2. When the client realm of the ticket matches an entry of the
    allowlist, in length and in content, the decision is success with no
    status, and the state is the one the call started in: no entry was
    fetched and no attribute was read. *)
Theorem preapproved_realm_allows_without_store context ticket request
  (d : xrealmauthz_data) (entries : list realm_entry) st :
  allowed_realms d = Some entries ->
  (exists e, In e entries
     /\ length e = String.length (realm (client (enc_part2 ticket)))
     /\ name e = realm (client (enc_part2 ticket))) ->
  check_cross_realm_auth context ticket request (Some d) st
  = ((0, StatusNull), st).
Proof.
  intros Hd Hin. unfold check_cross_realm_auth, is_realm_preapproved.
  rewrite Hd, (realm_scan_match _ _ Hin). reflexivity.
Qed.

(** C3, as the code has it.  Past the pre-approval step, with the entry
    of the ticket's server retrieved, the first attribute read is on the
    key "xr:@" followed by the client realm of the ticket as [%.*s] prints
    it, that is as far as its first NUL byte; and when that attribute has
    a value, whatever it is, the decision is success with no status after
    exactly three host calls: the fetch, that read and the release.  The
    client name was not unparsed and no second key was read.  For a
    client realm without a NUL byte the key is "xr:@" followed by the
    realm. *)
Theorem realm_scope_checked_first context ticket request data st tgt :
  is_realm_preapproved data (realm (client (enc_part2 ticket))) = false ->
  krb5_db_get_principal context (ticket_server ticket) = (0, tgt) ->
  let key := "xr:@" ++ print_data (realm (client (enc_part2 ticket))) in
  let out := check_cross_realm_auth context ticket request data st in
  (exists rest,
     calls (snd out)
     = (calls st ++ ev_db_get_principal (ticket_server ticket)
          :: ev_dbe_get_string tgt key :: rest)%list)
  /\ (forall v, krb5_dbe_get_string context tgt key = (0, Some v) ->
      out = ((0, StatusNull),
             {| denial_msg := denial_msg st;
                calls := (calls st
                  ++ [ev_db_get_principal (ticket_server ticket);
                      ev_dbe_get_string tgt key;
                      ev_db_free_principal tgt])%list |}))
  /\ (has_nul (realm (client (enc_part2 ticket))) = false ->
      key = "xr:@" ++ realm (client (enc_part2 ticket))).
Proof.
  intros Hpre Hget key out. subst out key. split; [|split].
  - now apply check_cross_realm_auth_fetched.
  - intros v Hv. unfold check_cross_realm_auth. rewrite Hpre.
    host_calls. rewrite Hget. cbn. cbn in Hv. rewrite Hv.
    tidy. reflexivity.
  - intros Hnul. now rewrite (print_data_whole _ Hnul).
Qed.

(** *** The principal-scope check and the verdict *)

Lemma check_principal_acl_reads context ticket request (enf : bool) tgt
  (acl : string) (client_princ_str : option string) st :
  exists rest,
    calls (snd (check_principal_acl context ticket request enf tgt acl
                  client_princ_str st))
    = (calls st ++ ev_dbe_get_string tgt acl :: rest)%list.
Proof.
  unfold check_principal_acl. host_calls. cbn.
  destruct (krb5_dbe_get_string context tgt acl) as [rc v].
  destruct (failed rc); [extended|].
  destruct (negb _); [|extended].
  match goal with
  | |- context [deny_or_audit ?c ?t ?r ?e ?g ?s ?st] =>
      destruct (deny_or_audit_appends c t r e g s st) as [l E]; rewrite E
  end.
  extended.
Qed.

Lemma check_principal_acl_present context ticket request (enf : bool) tgt
  (acl : string) (client_princ_str : option string) st (v : string) :
  krb5_dbe_get_string context tgt acl = (0, Some v) ->
  check_principal_acl context ticket request enf tgt acl client_princ_str st
  = ((0, StatusNull),
     {| denial_msg := denial_msg st;
        calls := (calls st ++ [ev_dbe_get_string tgt acl;
                               ev_db_free_principal tgt])%list |}).
Proof.
  intros H. unfold check_principal_acl. host_calls. rewrite H. tidy.
  reflexivity.
Qed.

Lemma check_principal_acl_absent context ticket request (enf : bool) tgt
  (acl : string) (client_princ_str : option string) st :
  krb5_dbe_get_string context tgt acl = (0, None) ->
  check_principal_acl context ticket request enf tgt acl client_princ_str st
  = deny_or_audit context ticket request enf tgt client_princ_str
      {| denial_msg := denial_msg st;
         calls := (calls st ++ [ev_dbe_get_string tgt acl])%list |}.
Proof.
  intros H. unfold check_principal_acl. host_calls. rewrite H. reflexivity.
Qed.

Lemma check_principal_acl_error context ticket request (enf : bool) tgt
  (acl : string) (client_princ_str : option string) st
  (rc : krb5_error_code) (v : option string) :
  rc <> 0 ->
  krb5_dbe_get_string context tgt acl = (rc, v) ->
  check_principal_acl context ticket request enf tgt acl client_princ_str st
  = ((rc, StatusNull),
     {| denial_msg := denial_msg st;
        calls := (calls st ++ [ev_dbe_get_string tgt acl;
                               ev_db_free_principal tgt])%list |}).
Proof.
  intros Hrc H. unfold check_principal_acl. host_calls. rewrite H. cbn.
  rewrite (failed_nonzero _ Hrc). tidy. reflexivity.
Qed.

(** The call as far as the principal-scope check. *)
Lemma check_cross_realm_auth_to_principal context ticket request data st tgt
  (s : string) :
  let cl := client (enc_part2 ticket) in
  let direct := krb5_realm_compare (ticket_server ticket) cl in
  is_realm_preapproved data (realm cl) = false ->
  krb5_db_get_principal context (ticket_server ticket) = (0, tgt) ->
  krb5_dbe_get_string context tgt ("xr:@" ++ print_data (realm cl)) = (0, None) ->
  (if direct
   then krb5_unparse_name_flags context cl KRB5_PRINCIPAL_UNPARSE_NO_REALM
   else krb5_unparse_name context cl) = (0, s) ->
  check_cross_realm_auth context ticket request data st
  = check_principal_acl context ticket request (enforcing_of data) tgt
      ("xr:" ++ s) (if direct then None else Some s)
      {| denial_msg := denial_msg st;
         calls := (calls st
           ++ [ev_db_get_principal (ticket_server ticket);
               ev_dbe_get_string tgt ("xr:@" ++ print_data (realm cl));
               if direct
               then ev_unparse_name_flags cl KRB5_PRINCIPAL_UNPARSE_NO_REALM
               else ev_unparse_name cl])%list |}.
Proof.
  intros cl direct Hpre Hget Hrealm Hname. subst cl.
  unfold check_cross_realm_auth. rewrite Hpre. host_calls.
  rewrite Hget. cbn. cbn in Hrealm. rewrite Hrealm. cbn.
  destruct (krb5_realm_compare _ _); subst direct; cbn;
    rewrite Hname; tidy; reflexivity.
Qed.

Lemma deny_or_audit_enforcing context ticket request tgt
  (client_princ_str : option string) st :
  deny_or_audit context ticket request true tgt client_princ_str st
  = ((KRB5KDC_ERR_POLICY, StatusDenialMsg),
     {| denial_msg :=
          substring 0 255 (denied_msg (realm (ticket_server ticket)));
        calls := (calls st ++ [ev_db_free_principal tgt])%list |}).
Proof. reflexivity. Qed.

Lemma deny_or_audit_audit context ticket request tgt
  (client_princ_str : option string) st (cs ss : string) :
  match client_princ_str with
  | Some s => s = cs
  | None => krb5_unparse_name context (client (enc_part2 ticket)) = (0, cs)
  end ->
  krb5_unparse_name context (request_server request) = (0, ss) ->
  let msg :=
    substring 0 255 (would_deny_msg cs ss (realm (ticket_server ticket))) in
  deny_or_audit context ticket request false tgt client_princ_str st
  = ((0, StatusDenialMsg),
     {| denial_msg := msg;
        calls := (calls st
          ++ match client_princ_str with
             | Some _ => []
             | None => [ev_unparse_name (client (enc_part2 ticket))]
             end
          ++ [ev_unparse_name (request_server request);
              ev_com_err msg;
              ev_db_free_principal tgt])%list |}).
Proof.
  intros Hc Hs msg. subst msg. unfold deny_or_audit. host_calls.
  destruct client_princ_str as [s|]; [subst s | rewrite Hc];
    cbn; rewrite Hs; tidy; reflexivity.
Qed.

(** *** What a call leaves behind

    The code and the status pointer of a call do not depend on the state
    it starts in; the calls it makes are added to those made before; the
    static buffer is written exactly when the status points at it. *)

Ltac path_step :=
  match goal with
  | |- context [krb5_db_get_principal ?c ?p] =>
      destruct (krb5_db_get_principal c p) as [? ?] eqn:?
  | |- context [krb5_dbe_get_string ?c ?e ?k] =>
      destruct (krb5_dbe_get_string c e k) as [? ?] eqn:?
  | |- context [krb5_unparse_name_flags ?c ?p ?f] =>
      destruct (krb5_unparse_name_flags c p f) as [? ?] eqn:?
  | |- context [krb5_unparse_name ?c ?p] =>
      destruct (krb5_unparse_name c p) as [? ?] eqn:?
  | |- context [if ?b then _ else _] => destruct b eqn:?
  | |- context [match ?o with Some _ => _ | None => _ end] =>
      destruct o eqn:?
  end; cbn.

Ltac all_paths :=
  unfold check_cross_realm_auth, check_principal_acl, deny_or_audit;
  host_calls; cbn; repeat path_step.

Lemma check_cross_realm_auth_frame context ticket request data st :
  let out := check_cross_realm_auth context ticket request data kdc_start in
  check_cross_realm_auth context ticket request data st
  = (fst out,
     {| denial_msg :=
          written (snd (fst out)) (denial_msg (snd out)) (denial_msg st);
        calls := (calls st ++ calls (snd out))%list |}).
Proof.
  destruct st as [buf log]. all_paths; tidy; rewrite ?app_nil_r; reflexivity.
Qed.

(** *** The claims on the attribute checks *)

(** C1. When the principal-scope check is reached (client realm not
    pre-approved, entry retrieved, realm-scope attribute read as absent):
    on a direct hop, where the server and client realms of the ticket are
    equal, the client is unparsed without its realm and the key read is
    "xr:" followed by that name; on a transitive path the client is
    unparsed fully qualified and the key read is "xr:" followed by that
    principal.  In both cases a value for the key, whatever it is, makes
    the decision success with no status. *)
Theorem principal_scope_key_follows_trust_path context ticket request data
  st tgt :
  let cl := client (enc_part2 ticket) in
  let srv := ticket_server ticket in
  let out := check_cross_realm_auth context ticket request data st in
  is_realm_preapproved data (realm cl) = false ->
  krb5_db_get_principal context srv = (0, tgt) ->
  krb5_dbe_get_string context tgt ("xr:@" ++ print_data (realm cl)) = (0, None) ->
  (realm srv = realm cl ->
   forall bare : string,
     krb5_unparse_name_flags context cl KRB5_PRINCIPAL_UNPARSE_NO_REALM
     = (0, bare) ->
     (exists rest,
        calls (snd out)
        = (calls st
           ++ ev_db_get_principal srv
           :: ev_dbe_get_string tgt ("xr:@" ++ print_data (realm cl))
           :: ev_unparse_name_flags cl KRB5_PRINCIPAL_UNPARSE_NO_REALM
           :: ev_dbe_get_string tgt ("xr:" ++ bare) :: rest)%list)
     /\ (forall v, krb5_dbe_get_string context tgt ("xr:" ++ bare)
                   = (0, Some v) ->
         fst out = (0, StatusNull) /\ denial_msg (snd out) = denial_msg st))
  /\ (realm srv <> realm cl ->
      forall full : string,
        krb5_unparse_name context cl = (0, full) ->
        (exists rest,
           calls (snd out)
           = (calls st
              ++ ev_db_get_principal srv
              :: ev_dbe_get_string tgt ("xr:@" ++ print_data (realm cl))
              :: ev_unparse_name cl
              :: ev_dbe_get_string tgt ("xr:" ++ full) :: rest)%list)
        /\ (forall v, krb5_dbe_get_string context tgt ("xr:" ++ full)
                      = (0, Some v) ->
            fst out = (0, StatusNull)
            /\ denial_msg (snd out) = denial_msg st)).
Proof.
  intros cl srv out Hpre Hget Hrealm. subst out. split.
  - intros Heq bare Hname.
    assert (Hd : krb5_realm_compare srv cl = true)
      by (unfold krb5_realm_compare; rewrite Heq; apply String.eqb_refl).
    rewrite (check_cross_realm_auth_to_principal context ticket request data
               st tgt bare Hpre Hget Hrealm);
      fold cl srv; rewrite Hd; trivial.
    split.
    + match goal with
      | |- context [check_principal_acl ?c ?t ?r ?e ?g ?a ?s ?st] =>
          destruct (check_principal_acl_reads c t r e g a s st) as [l E];
          rewrite E
      end.
      tidy. eexists. reflexivity.
    + intros v Hv. rewrite (check_principal_acl_present _ _ _ _ _ _ _ _ v Hv).
      now split.
  - intros Hne full Hname.
    assert (Hd : krb5_realm_compare srv cl = false)
      by (unfold krb5_realm_compare; now apply String.eqb_neq).
    rewrite (check_cross_realm_auth_to_principal context ticket request data
               st tgt full Hpre Hget Hrealm);
      fold cl srv; rewrite Hd; trivial.
    split.
    + match goal with
      | |- context [check_principal_acl ?c ?t ?r ?e ?g ?a ?s ?st] =>
          destruct (check_principal_acl_reads c t r e g a s st) as [l E];
          rewrite E
      end.
      tidy. eexists. reflexivity.
    + intros v Hv. rewrite (check_principal_acl_present _ _ _ _ _ _ _ _ v Hv).
      now split.
Qed.

(** The call as far as the verdict, when neither attribute is there. *)
Lemma check_cross_realm_auth_to_verdict context ticket request data st tgt
  (s : string) :
  let cl := client (enc_part2 ticket) in
  let direct := krb5_realm_compare (ticket_server ticket) cl in
  is_realm_preapproved data (realm cl) = false ->
  neither_attribute_present context ticket tgt s ->
  check_cross_realm_auth context ticket request data st
  = deny_or_audit context ticket request (enforcing_of data) tgt
      (if direct then None else Some s)
      {| denial_msg := denial_msg st;
         calls := (calls st
           ++ [ev_db_get_principal (ticket_server ticket);
               ev_dbe_get_string tgt ("xr:@" ++ print_data (realm cl));
               if direct
               then ev_unparse_name_flags cl KRB5_PRINCIPAL_UNPARSE_NO_REALM
               else ev_unparse_name cl;
               ev_dbe_get_string tgt ("xr:" ++ s)])%list |}.
Proof.
  intros cl direct Hpre (Hget & Hrealm & Hname & Hprinc).
  rewrite (check_cross_realm_auth_to_principal context ticket request data
             st tgt s Hpre Hget Hrealm Hname).
  rewrite (check_principal_acl_absent _ _ _ _ _ _ _ _ Hprinc).
  tidy. reflexivity.
Qed.

Lemma enforcing_of_nonzero (d : xrealmauthz_data) :
  enforcing d <> 0 -> enforcing_of (Some d) = true.
Proof.
  intros H. unfold enforcing_of. now destruct (Z.eqb_spec (enforcing d) 0).
Qed.

Lemma enforcing_of_zero (d : xrealmauthz_data) :
  enforcing d = 0 -> enforcing_of (Some d) = false.
Proof.
  intros H. unfold enforcing_of. now rewrite H.
Qed.

(** C4, as the code has it.  With neither attribute present and
    [enforcing] set, the decision is KRB5KDC_ERR_POLICY, not success, and
    the status is the static buffer holding the first 255 bytes of
    "xrealmauthz plugin denied from " followed by the server realm of the
    ticket, printed with [%.*s]: the whole message when that realm has at
    most 224 bytes.  The status is made of the server realm alone. *)
Theorem enforcing_denial_names_server_realm context ticket request
  (d : xrealmauthz_data) st tgt (s : string) :
  let srv := ticket_server ticket in
  let out := check_cross_realm_auth context ticket request (Some d) st in
  let message := "xrealmauthz plugin denied from " ++ print_data (realm srv) in
  is_realm_preapproved (Some d) (realm (client (enc_part2 ticket))) = false ->
  neither_attribute_present context ticket tgt s ->
  enforcing d <> 0 ->
  fst out = (KRB5KDC_ERR_POLICY, StatusDenialMsg)
  /\ fst (fst out) <> 0
  /\ status_string (snd out) (snd (fst out)) = Some (substring 0 255 message)
  /\ ((String.length (print_data (realm srv)) <= 224)%nat ->
      status_string (snd out) (snd (fst out)) = Some message).
Proof.
  intros srv out message Hpre Hnone Henf. subst out.
  rewrite (check_cross_realm_auth_to_verdict context ticket request (Some d)
             st tgt s Hpre Hnone).
  rewrite (enforcing_of_nonzero d Henf), deny_or_audit_enforcing.
  cbn [fst snd status_string denial_msg].
  repeat split; trivial; try discriminate.
  intros Hlen. f_equal. apply substring_all.
  fold srv. change (denied_msg (realm srv)) with message.
  assert (E : String.length message
              = (31 + String.length (print_data (realm srv)))%nat)
    by reflexivity.
  lia.
Qed.

(** C5, as the code has it.  With neither attribute present and
    [enforcing] clear, once the client and the requested service are
    unparsed as [cs] and [ss], the decision is success and the status is
    the static buffer holding the first 255 bytes of "xrealmauthz plugin
    would deny cs for ss from " followed by the server realm of the
    ticket, printed with [%.*s]: the whole message when it has at most 255
    bytes.  The service is the server of the request, not of the
    ticket. *)
Theorem audit_allows_with_would_deny_status context ticket request
  (d : xrealmauthz_data) st tgt (s cs ss : string) :
  let srv := ticket_server ticket in
  let out := check_cross_realm_auth context ticket request (Some d) st in
  let message :=
    "xrealmauthz plugin would deny " ++ cs ++ " for " ++ ss ++ " from "
      ++ print_data (realm srv) in
  is_realm_preapproved (Some d) (realm (client (enc_part2 ticket))) = false ->
  neither_attribute_present context ticket tgt s ->
  enforcing d = 0 ->
  krb5_unparse_name context (client (enc_part2 ticket)) = (0, cs) ->
  krb5_unparse_name context (request_server request) = (0, ss) ->
  fst out = (0, StatusDenialMsg)
  /\ status_string (snd out) (snd (fst out)) = Some (substring 0 255 message)
  /\ ((String.length message <= 255)%nat ->
      status_string (snd out) (snd (fst out)) = Some message).
Proof.
  intros srv out message Hpre Hnone Henf Hcs Hss. subst out.
  rewrite (check_cross_realm_auth_to_verdict context ticket request (Some d)
             st tgt s Hpre Hnone).
  rewrite (enforcing_of_zero d Henf).
  assert (Hc : match (if krb5_realm_compare (ticket_server ticket)
                           (client (enc_part2 ticket))
                      then None else Some s) with
               | Some s' => s' = cs
               | None => krb5_unparse_name context
                           (client (enc_part2 ticket)) = (0, cs)
               end).
  { destruct Hnone as (_ & _ & Hname & _).
    destruct (krb5_realm_compare _ _); trivial.
    rewrite Hcs in Hname. now injection Hname. }
  rewrite (deny_or_audit_audit context ticket request tgt _ _ cs ss Hc Hss).
  cbn [fst snd status_string denial_msg].
  change (would_deny_msg cs ss (realm (ticket_server ticket))) with message.
  repeat split; trivial.
  intros Hlen. f_equal. now apply substring_all.
Qed.

(** C6. Past the pre-approval step, a failing fetch of the entry and a
    failing read of either attribute end the call at once with the code
    of the failure, which is not success, and with a status that is not
    the denial buffer: the fixed text on the fetch, none on a read.  The
    static buffer is left as it was and the only call after the failing
    one is the release; after a failing fetch no attribute is read. *)
Theorem store_failure_aborts context ticket request data st :
  let cl := client (enc_part2 ticket) in
  let srv := ticket_server ticket in
  let out := check_cross_realm_auth context ticket request data st in
  is_realm_preapproved data (realm cl) = false ->
  (forall rc tgt,
     rc <> 0 ->
     krb5_db_get_principal context srv = (rc, tgt) ->
     out = ((rc, StatusLiteral
               "xrealmauthz plugin failed to retrieve cross-realm TGT from database"),
            {| denial_msg := denial_msg st;
               calls := (calls st ++ [ev_db_get_principal srv;
                                      ev_db_free_principal tgt])%list |}))
  /\ (forall rc tgt v,
        rc <> 0 ->
        krb5_db_get_principal context srv = (0, tgt) ->
        krb5_dbe_get_string context tgt ("xr:@" ++ print_data (realm cl)) = (rc, v) ->
        out = ((rc, StatusNull),
               {| denial_msg := denial_msg st;
                  calls := (calls st
                    ++ [ev_db_get_principal srv;
                        ev_dbe_get_string tgt ("xr:@" ++ print_data (realm cl));
                        ev_db_free_principal tgt])%list |}))
  /\ (forall rc tgt v (s : string),
        rc <> 0 ->
        krb5_db_get_principal context srv = (0, tgt) ->
        krb5_dbe_get_string context tgt ("xr:@" ++ print_data (realm cl)) = (0, None) ->
        (if krb5_realm_compare srv cl
         then krb5_unparse_name_flags context cl
                KRB5_PRINCIPAL_UNPARSE_NO_REALM
         else krb5_unparse_name context cl) = (0, s) ->
        krb5_dbe_get_string context tgt ("xr:" ++ s) = (rc, v) ->
        out = ((rc, StatusNull),
               {| denial_msg := denial_msg st;
                  calls := (calls st
                    ++ [ev_db_get_principal srv;
                        ev_dbe_get_string tgt ("xr:@" ++ print_data (realm cl));
                        if krb5_realm_compare srv cl
                        then ev_unparse_name_flags cl
                               KRB5_PRINCIPAL_UNPARSE_NO_REALM
                        else ev_unparse_name cl;
                        ev_dbe_get_string tgt ("xr:" ++ s);
                        ev_db_free_principal tgt])%list |})).
Proof.
  intros cl srv out Hpre. subst out. repeat split.
  - intros rc tgt Hrc Hget. unfold check_cross_realm_auth.
    fold cl srv. rewrite Hpre. host_calls. rewrite Hget. cbn.
    rewrite (failed_nonzero _ Hrc). tidy. reflexivity.
  - intros rc tgt v Hrc Hget Hrealm. unfold check_cross_realm_auth.
    fold cl srv. rewrite Hpre. host_calls. rewrite Hget. cbn.
    cbn in Hrealm. rewrite Hrealm. cbn.
    rewrite (failed_nonzero _ Hrc). tidy. reflexivity.
  - intros rc tgt v s Hrc Hget Hrealm Hname Hprinc.
    rewrite (check_cross_realm_auth_to_principal context ticket request data
               st tgt s Hpre Hget Hrealm Hname).
    rewrite (check_principal_acl_error _ _ _ _ _ _ _ _ rc v Hrc Hprinc).
    tidy. reflexivity.
Qed.

(** *** The claims on the status *)

Ltac succeeded :=
  repeat match goal with
         | H : failed ?rc = false |- _ => apply failed_false in H; subst rc
         end.

(** C7, as the code has it.  A status string has fewer than 256 bytes, so
    that it fits the buffer with its terminator.  A status in the denial
    buffer is the first 255 bytes of the message of its case, and the
    code is the one of that case whatever the length of the message:
    KRB5KDC_ERR_POLICY with the denial, success with the audit message.
    The cut is made at a byte count. *)
Theorem status_is_cut_to_the_buffer context ticket request data st
  (s : string) :
  let cl := client (enc_part2 ticket) in
  let srv := ticket_server ticket in
  let out := check_cross_realm_auth context ticket request data st in
  status_string (snd out) (snd (fst out)) = Some s ->
  (String.length s < MAX_DENIAL_MSG_LEN)%nat
  /\ (snd (fst out) = StatusDenialMsg ->
      (fst (fst out) = KRB5KDC_ERR_POLICY
       /\ s = substring 0 255
                ("xrealmauthz plugin denied from "
                   ++ print_data (realm srv)))
      \/ (fst (fst out) = 0
          /\ exists cs ss : string,
               krb5_unparse_name context cl = (0, cs)
               /\ krb5_unparse_name context (request_server request)
                  = (0, ss)
               /\ s = substring 0 255
                        ("xrealmauthz plugin would deny " ++ cs ++ " for "
                           ++ ss ++ " from " ++ print_data (realm srv)))).
Proof.
  intros cl srv out. subst cl srv out.
  all_paths; intros Hs; try discriminate; injection Hs as <-;
    succeeded;
    (split;
     [ first [ apply snprintf_in_buffer | vm_compute; lia ]
     | intros Hp; try discriminate ]).
  - right. split; trivial. eexists _, _. repeat split; eauto.
  - left. now split.
  - right. split; trivial. eexists _, _. repeat split; eauto.
  - left. now split.
Qed.

Lemma status_is_null_literal_or_buffer context ticket request data st :
  let out := check_cross_realm_auth context ticket request data st in
  snd (fst out) = StatusNull
  \/ snd (fst out)
     = StatusLiteral
         "xrealmauthz plugin failed to retrieve cross-realm TGT from database"
  \/ (snd (fst out) = StatusDenialMsg
      /\ denial_message context ticket request (fst (fst out))
           (denial_msg (snd out))).
Proof.
  intros out. subst out. unfold denial_message.
  all_paths; succeeded;
    first
      [ left; reflexivity
      | right; left; reflexivity
      | right; right; split; [reflexivity|]; left; split; reflexivity
      | right; right; split; [reflexivity|]; right; split; [reflexivity|];
        eexists _, _; repeat split; eauto ].
Qed.

(** C8, as the code has it.  The code and the status string of a call are
    the same from whatever state the call starts: read before the next
    call, a status is the message of its own call.  The status of a call
    is NULL, the fixed text of the failed fetch, or the one static buffer
    of the function, and in the last case the buffer holds the denial or
    would-deny message of the call, cut to 255 bytes: no call hands out a
    message of its own.  So when two calls in a row both produce a
    message, the status pointer of the first reads, after the second, as
    what the buffer then holds, which is the message of the second. *)
Theorem status_is_kept_in_the_static_buffer context
  ticket request data ticket' request' data' st st0 :
  let out := check_cross_realm_auth context ticket request data st in
  let out0 := check_cross_realm_auth context ticket request data st0 in
  let next := check_cross_realm_auth context ticket' request' data' (snd out) in
  (fst out = fst out0
   /\ status_string (snd out) (snd (fst out))
      = status_string (snd out0) (snd (fst out0)))
  /\ (snd (fst out) = StatusNull
      \/ snd (fst out)
         = StatusLiteral
             "xrealmauthz plugin failed to retrieve cross-realm TGT from database"
      \/ (snd (fst out) = StatusDenialMsg
          /\ denial_message context ticket request (fst (fst out))
               (denial_msg (snd out))))
  /\ (snd (fst out) = StatusDenialMsg ->
      snd (fst next) = StatusDenialMsg ->
      status_string (snd next) (snd (fst out)) = Some (denial_msg (snd next))
      /\ denial_message context ticket' request' (fst (fst next))
           (denial_msg (snd next))).
Proof.
  intros out out0 next. split; [|split].
  - subst out out0.
    rewrite (check_cross_realm_auth_frame context ticket request data st),
      (check_cross_realm_auth_frame context ticket request data st0).
    cbn [fst snd]. split; trivial.
    destruct (snd (fst (check_cross_realm_auth context ticket request data
                          kdc_start))); reflexivity.
  - apply status_is_null_literal_or_buffer.
  - intros H1 H2. rewrite H1. split; [reflexivity|].
    destruct (status_is_null_literal_or_buffer context ticket' request'
                data' (snd out)) as [N | [L | [_ M]]].
    + fold next in N. rewrite H2 in N. discriminate N.
    + fold next in L. rewrite H2 in L. discriminate L.
    + exact M.
Qed.

(** *** The claims on the entry point and its module data *)

(** C9. With no module data, no realm is pre-approved and the call runs as
    with [enforcing] set and an empty allowlist; when neither attribute is
    present the decision is KRB5KDC_ERR_POLICY, not success. *)
Theorem null_moddata_enforces context ticket request st :
  let out := check_cross_realm_auth context ticket request None st in
  (forall r : krb5_data, is_realm_preapproved None r = false)
  /\ out = check_cross_realm_auth context ticket request
             (Some {| enforcing := TRUE; allowed_realms := Some [] |}) st
  /\ (forall tgt (s : string),
        neither_attribute_present context ticket tgt s ->
        fst out = (KRB5KDC_ERR_POLICY, StatusDenialMsg)
        /\ fst (fst out) <> 0).
Proof.
  intros out. subst out. split; [reflexivity|]. split; [reflexivity|].
  intros tgt s Hnone.
  rewrite (check_cross_realm_auth_to_verdict context ticket request None
             st tgt s eq_refl Hnone).
  change (enforcing_of None) with true. rewrite deny_or_audit_enforcing.
  split; [reflexivity | discriminate].
Qed.

(** C10. The entry point answers a request whose server realm is the
    client realm of the ticket with success and no status, in the state it
    started in, whatever the module data and the host: nothing is looked
    up, fetched or read.  On every call the lifetime cells that are given
    end up holding 0. *)
Theorem same_realm_request_short_circuits context
  (moddata : option xrealmauthz_data) request (server : option krb5_db_entry)
  ticket (auth_indicators : list string)
  (lifetime_out renew_lifetime_out : option krb5_deltat) st :
  let out :=
    xrealmauthz_check context moddata request server ticket auth_indicators
      lifetime_out renew_lifetime_out st in
  (realm (request_server request) = realm (client (enc_part2 ticket)) ->
   out = ((0, StatusNull, option_map (fun _ => 0) lifetime_out,
           option_map (fun _ => 0) renew_lifetime_out), st))
  /\ snd (fst (fst out)) = option_map (fun _ => 0) lifetime_out
  /\ snd (fst out) = option_map (fun _ => 0) renew_lifetime_out.
Proof.
  intros out. subst out. unfold xrealmauthz_check, krb5_realm_compare.
  split.
  - intros ->. now rewrite String.eqb_refl.
  - destruct (String.eqb _ _); [now split|].
    unfold bind.
    destruct (check_cross_realm_auth context ticket request moddata st)
      as [[rc p] st'].
    now split.
Qed.

(** *** Further properties of the decision *)

Ltac mode :=
  repeat match goal with
         | H : negb (enforcing_of _) = _ |- _ =>
             apply (f_equal negb) in H; rewrite negb_involutive in H;
             cbn in H
         end.

Ltac failures :=
  repeat match goal with
         | H : failed ?rc || _ = _ |- _ =>
             destruct (failed rc) eqn:?; cbn in H
         end;
  succeeded;
  repeat match goal with
         | H : failed ?rc = true |- _ => apply failed_true in H
         end.

(** *** On a heap that can refuse *)

Lemma host_calls_app (a b : list (heap_call krb5_db_entry)) :
  host_calls (a ++ b) = (host_calls a ++ host_calls b)%list.
Proof.
  induction a as [|c a IH]; cbn; trivial.
  destruct c; cbn; now rewrite IH.
Qed.

Ltac heap_paths heap :=
  unfold check_cross_realm_auth_alloc, check_principal_acl_alloc,
    deny_or_audit_alloc, cleanup_alloc, asprintf, lift, record, hbind, hret;
  host_calls; cbn;
  destruct (heap 0%nat) eqn:?, (heap 1%nat) eqn:?; cbn;
  repeat path_step.

(** On a heap that grants every request the decision is
    [check_cross_realm_auth]: the same code and status, the same buffer,
    and the same calls to the host. *)
Lemma check_cross_realm_auth_alloc_granting context ticket request data
  (h : heap_state krb5_db_entry) :
  let out := check_cross_realm_auth_alloc granting context ticket request
               data h in
  let out0 := check_cross_realm_auth context ticket request data
                {| denial_msg := buffer h;
                   calls := host_calls (trace h) |} in
  fst out = fst out0
  /\ buffer (snd out) = denial_msg (snd out0)
  /\ host_calls (trace (snd out)) = calls (snd out0).
Proof.
  intros out out0. subst out out0. destruct h as [buf tr].
  unfold check_cross_realm_auth, check_principal_acl, deny_or_audit.
  heap_paths granting; try discriminate;
    (split; [reflexivity|]); (split; [reflexivity|]);
    rewrite ?host_calls_app; cbn; rewrite <- ?app_assoc; reflexivity.
Qed.

(** X1. On any heap, every call ends in one of six ways: success with no
    status; success with the denial buffer as status, in audit mode only;
    KRB5KDC_ERR_POLICY with the denial buffer, in enforcing mode only; the
    code of the failed fetch with the fixed text; the code of a failed
    attribute read or unparsing with no status; ENOMEM with no status,
    when the heap refused one of the two keys. *)
Theorem decision_outcomes (heap : nat -> bool) context ticket request data
  (h : heap_state krb5_db_entry) :
  let out :=
    check_cross_realm_auth_alloc heap context ticket request data h in
  fst out = (0, StatusNull)
  \/ (fst out = (0, StatusDenialMsg) /\ enforcing_of data = false)
  \/ (fst out = (KRB5KDC_ERR_POLICY, StatusDenialMsg)
      /\ enforcing_of data = true)
  \/ (exists rc tgt,
        rc <> 0
        /\ krb5_db_get_principal context (ticket_server ticket) = (rc, tgt)
        /\ fst out
           = (rc, StatusLiteral
                    "xrealmauthz plugin failed to retrieve cross-realm TGT from database"))
  \/ (exists rc,
        fst out = (rc, StatusNull) /\ read_or_unparse_failed context rc)
  \/ (fst out = (ENOMEM, StatusNull)
      /\ (heap 0%nat = false \/ heap 1%nat = false)).
Proof.
  intros out. subst out. unfold read_or_unparse_failed.
  heap_paths heap; mode; failures;
    try (left; reflexivity);
    try (right; left; split; [reflexivity | assumption]);
    try (right; right; left; split; [reflexivity | assumption]);
    try (right; right; right; left; eexists _, _; repeat split;
         first [eassumption | reflexivity]);
    try (right; right; right; right; left; eexists; split; [reflexivity|];
         split; [assumption|]; eauto 8);
    try (right; right; right; right; right; split; [reflexivity|]; auto).
Qed.

(** X2. In enforcing mode the entry point returns success only for a
    reason: the request is for the client's own realm, or the client realm
    is pre-approved, or the entry of the ticket's server is retrieved and
    has a value for the realm-scope key or for the principal-scope key of
    the trust path.  The status is then NULL and the static buffer is as
    it was. *)
Theorem enforcing_success_has_a_reason context
  (moddata : option xrealmauthz_data) request (server : option krb5_db_entry)
  ticket (auth_indicators : list string)
  (lifetime_out renew_lifetime_out : option krb5_deltat) st
  (status : status_ptr) (l r : option krb5_deltat)
  (st' : kdc_state krb5_db_entry) :
  let cl := client (enc_part2 ticket) in
  let srv := ticket_server ticket in
  enforcing_of moddata = true ->
  xrealmauthz_check context moddata request server ticket auth_indicators
    lifetime_out renew_lifetime_out st
  = (0, status, l, r, st') ->
  status = StatusNull
  /\ denial_msg st' = denial_msg st
  /\ (realm (request_server request) = realm cl
      \/ is_realm_preapproved moddata (realm cl) = true
      \/ exists tgt v,
           krb5_db_get_principal context srv = (0, tgt)
           /\ (krb5_dbe_get_string context tgt ("xr:@" ++ print_data (realm cl))
               = (0, Some v)
               \/ exists s : string,
                    (if krb5_realm_compare srv cl
                     then krb5_unparse_name_flags context cl
                            KRB5_PRINCIPAL_UNPARSE_NO_REALM
                     else krb5_unparse_name context cl) = (0, s)
                    /\ krb5_dbe_get_string context tgt ("xr:" ++ s)
                       = (0, Some v))).
Proof.
  intros cl srv Henf. subst cl srv. unfold xrealmauthz_check.
  destruct (krb5_realm_compare (request_server request) _) eqn:Hsame.
  - cbn. intros H. injection H as <- _ _ <-.
    apply String.eqb_eq in Hsame. auto.
  - unfold check_cross_realm_auth, check_principal_acl, deny_or_audit.
    rewrite Henf. host_calls. cbn. repeat path_step;
      intros H; cbv [KRB5KDC_ERR_POLICY] in H; try discriminate H;
      injection H; intros; subst; failures;
      try discriminate; try contradiction;
      (split; [reflexivity|]); (split; [reflexivity|]);
      repeat match goal with
             | H : context [is_some ?o] |- _ =>
                 destruct o; cbn in H; try discriminate H
             end;
      first
        [ right; left; reflexivity
        | right; right; eexists _, _; split; [reflexivity|];
          left; eassumption
        | right; right; eexists _, _; split; [reflexivity|];
          right; eexists; split; [reflexivity|]; eassumption ].
Qed.




(** X4. A call logs through [com_err] exactly when it ends in success with
    the denial buffer as status, the audit case; it then logs once, and
    what it logs is the status.  A denial, a plain success and an error
    log nothing. *)
Theorem com_err_logs_the_would_deny_status context ticket request data st :
  let out := check_cross_realm_auth context ticket request data st in
  exists l,
    calls (snd out) = (calls st ++ l)%list
    /\ com_err_messages l
       = if is_denial_msg (snd (fst out)) && Z.eqb (fst (fst out)) 0
         then [denial_msg (snd out)]
         else [].
Proof.
  intros out. subst out.
  all_paths;
    first
      [ exists []; split; [cbn; now rewrite app_nil_r | reflexivity]
      | eexists; split; [tidy; reflexivity | reflexivity] ].
Qed.

(** X5. A call whose status is not the denial buffer leaves the buffer as
    it was: a message an earlier call left there stays readable across
    calls that allow or fail. *)
Theorem denial_buffer_kept_without_denial context ticket request data st :
  let out := check_cross_realm_auth context ticket request data st in
  snd (fst out) <> StatusDenialMsg ->
  denial_msg (snd out) = denial_msg st.
Proof.
  intros out. subst out.
  rewrite (check_cross_realm_auth_frame context ticket request data st).
  cbn [fst snd denial_msg].
  destruct (snd (fst (check_cross_realm_auth context ticket request data
                        kdc_start))); trivial.
  intros H. now elim H.
Qed.

(** X15. Every attribute a call reads has a key that begins with the
    prefix "xr:": the module consults no other string attribute of the
    entry. *)
Theorem only_prefixed_keys_are_read context ticket request data st :
  let out := check_cross_realm_auth context ticket request data st in
  exists l,
    calls (snd out) = (calls st ++ l)%list
    /\ Forall (fun key => exists rest, key = ATTR_PREFIX ++ rest)
         (keys_read l).
Proof.
  intros out. subst out.
  all_paths;
    first
      [ exists []; split; [cbn; now rewrite app_nil_r | constructor]
      | eexists; split;
        [ tidy; reflexivity
        | cbn;
          repeat first
            [ apply Forall_nil
            | apply Forall_cons; [eexists; reflexivity|] ] ] ].
Qed.

End Properties.

(** ** Runs on the example host *)

Import Example.

Example direct_trust_wrong_key_shape :
  fst (check_cross_realm_auth
         (host (db_with tgt_direct [("xr:alice@R1", Value "1")]))
         (mk_ticket alice tgt_direct) www enforce start)
  = (KRB5KDC_ERR_POLICY, StatusDenialMsg).
Proof. reflexivity. Qed.

Example transitive_trust_wrong_key_shape :
  fst (check_cross_realm_auth
         (host (db_with tgt_transit [("xr:alice", Value "1")]))
         (mk_ticket alice tgt_transit) www enforce start)
  = (KRB5KDC_ERR_POLICY, StatusDenialMsg).
Proof. reflexivity. Qed.

Lemma principal_scope_key_follows_trust_path_witness :
  fst (check_cross_realm_auth
         (host (db_with tgt_direct [("xr:alice", Value "1")]))
         (mk_ticket alice tgt_direct) www enforce start)
  = (0, StatusNull)
  /\ fst (check_cross_realm_auth
            (host (db_with tgt_transit [("xr:alice@R1", Value "1")]))
            (mk_ticket alice tgt_transit) www enforce start)
     = (0, StatusNull).
Proof.
  split.
  - destruct (principal_scope_key_follows_trust_path
                (host (db_with tgt_direct [("xr:alice", Value "1")]))
                (mk_ticket alice tgt_direct) www enforce start
                (Some (entry_with tgt_direct [("xr:alice", Value "1")]))
                eq_refl eq_refl eq_refl) as [Hdirect _].
    destruct (Hdirect eq_refl "alice" eq_refl) as [_ Hallow].
    exact (proj1 (Hallow "1" eq_refl)).
  - destruct (principal_scope_key_follows_trust_path
                (host (db_with tgt_transit [("xr:alice@R1", Value "1")]))
                (mk_ticket alice tgt_transit) www enforce start
                (Some (entry_with tgt_transit [("xr:alice@R1", Value "1")]))
                eq_refl eq_refl eq_refl) as [_ Htransit].
    assert (Hne : realm tgt_transit <> realm alice) by discriminate.
    destruct (Htransit Hne "alice@R1" eq_refl) as [_ Hallow].
    exact (proj1 (Hallow "1" eq_refl)).
Defined.

Lemma preapproved_realm_allows_without_store_witness :
  check_cross_realm_auth (host []) (mk_ticket alice tgt_direct) www
    (Some (mk_data 1 ["R0"; "R1"])) start
  = ((0, StatusNull), start).
Proof.
  apply (preapproved_realm_allows_without_store (host [])
           (mk_ticket alice tgt_direct) www (mk_data 1 ["R0"; "R1"])
           (realm_entries ["R0"; "R1"]) start).
  - reflexivity.
  - exists {| name := "R1"; length := 2 |}. simpl. auto.
Defined.

Lemma realm_scope_checked_first_witness :
  check_cross_realm_auth (host (db_with tgt_direct [("xr:@R1", Value "")]))
    (mk_ticket alice tgt_direct) www enforce start
  = ((0, StatusNull),
     {| denial_msg := "";
        calls :=
          [ev_db_get_principal tgt_direct;
           ev_dbe_get_string
             (Some (entry_with tgt_direct [("xr:@R1", Value "")])) "xr:@R1";
           ev_db_free_principal
             (Some (entry_with tgt_direct [("xr:@R1", Value "")]))] |}).
Proof.
  destruct (realm_scope_checked_first
              (host (db_with tgt_direct [("xr:@R1", Value "")]))
              (mk_ticket alice tgt_direct) www enforce start
              (Some (entry_with tgt_direct [("xr:@R1", Value "")]))
              eq_refl eq_refl) as [_ [Hallow _]].
  exact (Hallow "" eq_refl).
Defined.

Lemma realm_scope_key_cut_at_nul :
  is_realm_preapproved enforce (realm nul_client) = false
  /\ krb5_db_get_principal
       (host (db_with tgt_transit [("xr:@R1", Value "")])) tgt_transit
     = (0, Some (entry_with tgt_transit [("xr:@R1", Value "")]))
  /\ krb5_dbe_get_string
       (host (db_with tgt_transit [("xr:@R1", Value "")]))
       (Some (entry_with tgt_transit [("xr:@R1", Value "")]))
       ("xr:@" ++ realm nul_client)
     = (0, None)
  /\ keys_read (calls (snd nul_call)) = ["xr:@R1"]
  /\ "xr:@R1" <> "xr:@" ++ realm nul_client
  /\ fst nul_call = (0, StatusNull).
Proof.
  repeat split; try reflexivity. discriminate.
Qed.

Lemma enforcing_denial_names_server_realm_witness :
  fst (check_cross_realm_auth (host (db_with tgt_direct []))
         (mk_ticket alice tgt_direct) www enforce start)
  = (KRB5KDC_ERR_POLICY, StatusDenialMsg)
  /\ status_string
       (snd (check_cross_realm_auth (host (db_with tgt_direct []))
               (mk_ticket alice tgt_direct) www enforce start))
       StatusDenialMsg
     = Some "xrealmauthz plugin denied from R1".
Proof.
  assert (Hnone : neither_attribute_present (host (db_with tgt_direct []))
                    (mk_ticket alice tgt_direct)
                    (Some (entry_with tgt_direct [])) "alice")
    by (repeat split; reflexivity).
  assert (Henf : enforcing (mk_data 1 []) <> 0) by discriminate.
  destruct (enforcing_denial_names_server_realm
              (host (db_with tgt_direct [])) (mk_ticket alice tgt_direct)
              www (mk_data 1 []) start (Some (entry_with tgt_direct []))
              "alice" eq_refl Hnone Henf) as (Hcode & _ & _ & Hwhole).
  split; [exact Hcode|].
  assert (Hlen : (String.length (realm tgt_direct) <= 224)%nat)
    by (simpl; lia).
  exact (Hwhole Hlen).
Defined.

Lemma enforcing_denial_cut_for_long_realm :
  is_realm_preapproved enforce (realm alice) = false
  /\ neither_attribute_present (host (db_with tgt_long []))
       (mk_ticket alice tgt_long) (Some (entry_with tgt_long [])) "alice@R1"
  /\ fst long_denial = (KRB5KDC_ERR_POLICY, StatusDenialMsg)
  /\ status_string (snd long_denial) (snd (fst long_denial))
     <> Some ("xrealmauthz plugin denied from " ++ realm tgt_long).
Proof.
  split; [reflexivity|]. split; [repeat split; reflexivity|].
  split; [reflexivity|].
  intros H. apply (f_equal (option_map String.length)) in H.
  vm_compute in H. discriminate.
Qed.

Lemma audit_allows_with_would_deny_status_witness :
  fst alice_audit = (0, StatusDenialMsg)
  /\ status_string (snd alice_audit) (snd (fst alice_audit))
     = Some "xrealmauthz plugin would deny alice@R1 for host/www@R2 from R1".
Proof.
  assert (Hnone : neither_attribute_present (host (db_with tgt_direct []))
                    (mk_ticket alice tgt_direct)
                    (Some (entry_with tgt_direct [])) "alice")
    by (repeat split; reflexivity).
  destruct (audit_allows_with_would_deny_status
              (host (db_with tgt_direct [])) (mk_ticket alice tgt_direct)
              www (mk_data 0 []) start (Some (entry_with tgt_direct []))
              "alice" "alice@R1" "host/www@R2" eq_refl Hnone eq_refl
              eq_refl eq_refl) as (Hcode & _ & Hwhole).
  split; [exact Hcode|].
  apply Hwhole. simpl. lia.
Defined.

Lemma audit_status_cut_for_long_service :
  is_realm_preapproved audit (realm alice) = false
  /\ neither_attribute_present (host (db_with tgt_direct []))
       (mk_ticket alice tgt_direct) (Some (entry_with tgt_direct [])) "alice"
  /\ krb5_unparse_name (host (db_with tgt_direct [])) alice = (0, "alice@R1")
  /\ krb5_unparse_name (host (db_with tgt_direct []))
       (request_server long_service)
     = (0, "host/" ++ replicate 300 "w" ++ "@R2")
  /\ fst long_audit = (0, StatusDenialMsg)
  /\ status_string (snd long_audit) (snd (fst long_audit))
     <> Some ("xrealmauthz plugin would deny " ++ "alice@R1" ++ " for "
                ++ ("host/" ++ replicate 300 "w" ++ "@R2") ++ " from "
                ++ realm tgt_direct).
Proof.
  split; [reflexivity|]. split; [repeat split; reflexivity|].
  split; [reflexivity|]. split; [reflexivity|]. split; [reflexivity|].
  intros H. apply (f_equal (option_map String.length)) in H.
  vm_compute in H. discriminate.
Qed.

Lemma store_failure_aborts_witness :
  check_cross_realm_auth (host []) (mk_ticket alice tgt_direct) www enforce
    start
  = ((KRB5_KDB_NOENTRY,
      StatusLiteral
        "xrealmauthz plugin failed to retrieve cross-realm TGT from database"),
     {| denial_msg := "";
        calls := [ev_db_get_principal tgt_direct;
                  ev_db_free_principal None] |})
  /\ fst (check_cross_realm_auth
            (host (db_with tgt_direct [("xr:@R1", Unreadable 5)]))
            (mk_ticket alice tgt_direct) www enforce start)
     = (5, StatusNull)
  /\ fst (check_cross_realm_auth
            (host (db_with tgt_direct [("xr:alice", Unreadable 5)]))
            (mk_ticket alice tgt_direct) www enforce start)
     = (5, StatusNull).
Proof.
  assert (Hrc : KRB5_KDB_NOENTRY <> 0) by discriminate.
  assert (H5 : 5 <> 0) by discriminate.
  split; [|split].
  - destruct (store_failure_aborts (host []) (mk_ticket alice tgt_direct)
                www enforce start eq_refl) as (Hfetch & _ & _).
    exact (Hfetch KRB5_KDB_NOENTRY None Hrc eq_refl).
  - destruct (store_failure_aborts
                (host (db_with tgt_direct [("xr:@R1", Unreadable 5)]))
                (mk_ticket alice tgt_direct) www enforce start eq_refl)
      as (_ & Hrealm & _).
    rewrite (Hrealm 5 _ None H5 eq_refl eq_refl). reflexivity.
  - destruct (store_failure_aborts
                (host (db_with tgt_direct [("xr:alice", Unreadable 5)]))
                (mk_ticket alice tgt_direct) www enforce start eq_refl)
      as (_ & _ & Hprinc).
    rewrite (Hprinc 5 _ None "alice" H5 eq_refl eq_refl eq_refl eq_refl).
    reflexivity.
Defined.

Lemma status_is_cut_to_the_buffer_witness :
  status_string (snd alice_audit) (snd (fst alice_audit))
  = Some "xrealmauthz plugin would deny alice@R1 for host/www@R2 from R1"
  /\ (String.length
        "xrealmauthz plugin would deny alice@R1 for host/www@R2 from R1"
      < MAX_DENIAL_MSG_LEN)%nat.
Proof.
  split; [reflexivity|].
  exact (proj1 (status_is_cut_to_the_buffer (host (db_with tgt_direct []))
                  (mk_ticket alice tgt_direct) www audit start
                  "xrealmauthz plugin would deny alice@R1 for host/www@R2 from R1"
                  eq_refl)).
Defined.

Lemma truncation_splits_multibyte_sequence :
  utf8_well_formed accented_message = true
  /\ (MAX_DENIAL_MSG_LEN <=? String.length accented_message)%nat = true
  /\ krb5_unparse_name (host (db_with tgt_direct [])) accented
     = (0, replicate 113 e_acute ++ "@R1")
  /\ fst accented_audit = (0, StatusDenialMsg)
  /\ option_map String.length
       (status_string (snd accented_audit) (snd (fst accented_audit)))
     = Some 255%nat
  /\ option_map utf8_well_formed
       (status_string (snd accented_audit) (snd (fst accented_audit)))
     = Some false.
Proof.
  repeat split; vm_compute; reflexivity.
Qed.

Lemma status_is_kept_in_the_static_buffer_witness :
  status_string (snd bob_audit_after_alice) (snd (fst alice_audit))
  = Some (denial_msg (snd bob_audit_after_alice))
  /\ denial_message (host (db_with tgt_direct []))
       (mk_ticket bob tgt_direct) www (fst (fst bob_audit_after_alice))
       (denial_msg (snd bob_audit_after_alice)).
Proof.
  exact (proj2 (proj2 (status_is_kept_in_the_static_buffer
                         (host (db_with tgt_direct []))
                         (mk_ticket alice tgt_direct) www audit
                         (mk_ticket bob tgt_direct) www audit start start))
           eq_refl eq_refl).
Defined.

Lemma second_call_overwrites_first_status :
  snd (fst alice_audit) = StatusDenialMsg
  /\ status_string (snd alice_audit) (snd (fst alice_audit))
     = Some "xrealmauthz plugin would deny alice@R1 for host/www@R2 from R1"
  /\ snd (fst bob_audit_after_alice) = StatusDenialMsg
  /\ status_string (snd bob_audit_after_alice) (snd (fst alice_audit))
     = Some "xrealmauthz plugin would deny bob@R1 for host/www@R2 from R1"
  /\ status_string (snd bob_audit_after_alice) (snd (fst alice_audit))
     <> status_string (snd alice_audit) (snd (fst alice_audit)).
Proof.
  repeat split; try reflexivity. vm_compute. discriminate.
Qed.

Lemma null_moddata_enforces_witness :
  fst (check_cross_realm_auth (host (db_with tgt_direct []))
         (mk_ticket alice tgt_direct) www None start)
  = (KRB5KDC_ERR_POLICY, StatusDenialMsg).
Proof.
  assert (Hnone : neither_attribute_present (host (db_with tgt_direct []))
                    (mk_ticket alice tgt_direct)
                    (Some (entry_with tgt_direct [])) "alice")
    by (repeat split; reflexivity).
  destruct (null_moddata_enforces (host (db_with tgt_direct []))
              (mk_ticket alice tgt_direct) www start) as (_ & _ & Hdeny).
  exact (proj1 (Hdeny (Some (entry_with tgt_direct [])) "alice" Hnone)).
Defined.

Lemma same_realm_request_short_circuits_witness :
  xrealmauthz_check (host []) enforce www None
    (mk_ticket (princ_of ["carol"] "R2") (princ_of ["krbtgt"; "R2"] "R2")) []
    (Some 36000) None start
  = ((0, StatusNull, Some 0, None), start).
Proof.
  exact (proj1 (same_realm_request_short_circuits (host []) enforce www None
                  (mk_ticket (princ_of ["carol"] "R2")
                     (princ_of ["krbtgt"; "R2"] "R2")) []
                  (Some 36000) None start) eq_refl).
Defined.

(** ** Loading and unloading *)

(** X6. For module data whose allowlist was built from a list of names the
    way [xrealmauthz_init] builds it, a realm is pre-approved exactly when
    it is one of the names, byte for byte: no prefix, no extension and no
    other case of a name is.  Without module data, without the array or
    with an empty one no realm is pre-approved. *)
Theorem preapproved_exactly_the_listed_realms (enf : Z)
  (names : list string) (client_realm : krb5_data) :
  (is_realm_preapproved
     (Some {| enforcing := enf; allowed_realms := Some (realm_entries names) |})
     client_realm = true
   <-> In client_realm names)
  /\ is_realm_preapproved None client_realm = false
  /\ is_realm_preapproved
       (Some {| enforcing := enf; allowed_realms := None |}) client_realm
     = false
  /\ is_realm_preapproved
       (Some {| enforcing := enf; allowed_realms := Some [] |}) client_realm
     = false.
Proof.
  split; [apply realm_scan_entries | repeat split].
Qed.

Section Loading.

Context {profile_t : Type}.

Implicit Types (lib : profile_lib profile_t).

Ltac load lib :=
  unfold xrealmauthz_init, init_cleanup, and_then;
  destruct (krb5_get_profile lib) as [rcp prof]; cbn [fst snd];
  destruct (failed rcp) eqn:Hp; cbn [fst snd];
  [ apply failed_true in Hp
  | apply failed_false in Hp; subst rcp;
    destruct (profile_get_values lib prof _) as [rcv vals]; cbn [fst snd];
    destruct (Z.eqb_spec rcv PROF_NO_RELATION) as [Hno|Hrel];
    [ subst rcv; cbn [failed negb Z.eqb]
    | destruct (failed rcv) eqn:Hv;
      [ apply failed_true in Hv | apply failed_false in Hv; subst rcv ] ] ];
  cbn [fst snd].

(** On a heap that grants every request the load is
    [xrealmauthz_init]. *)
Lemma xrealmauthz_init_alloc_granting lib :
  xrealmauthz_init_alloc granting lib = xrealmauthz_init lib.
Proof.
  unfold xrealmauthz_init_alloc, xrealmauthz_init.
  destruct (krb5_get_profile lib) as [rcp prof].
  destruct (failed rcp); trivial. cbn [granting negb].
  destruct (profile_get_values lib prof _) as [rcv vals].
  destruct (failed _); trivial.
  now rewrite andb_false_r.
Qed.

(** X7. On any heap, loading returns 0 exactly when the profile is
    obtained, the heap grants the module data, the query for the allowed
    realms returns 0 or PROF_NO_RELATION and, if it left a list, the heap
    grants the array of entries.  Otherwise it returns the code of the
    call that failed, ENOMEM for a refused allocation, and hands out NULL.
    What [profile_get_boolean] returns does not matter. *)
Theorem init_fails_only_on_profile_values_or_heap (heap : nat -> bool) lib :
  let r := xrealmauthz_init_alloc heap lib in
  let got := krb5_get_profile lib in
  let values :=
    profile_get_values lib (snd got)
      ["kdcdefaults"; "xrealmauthz_allowed_realms"] in
  (fst (fst r) = 0
   <-> fst got = 0
       /\ heap 0%nat = true
       /\ (fst values = 0 \/ fst values = PROF_NO_RELATION)
       /\ (snd values = None \/ heap 1%nat = true))
  /\ (fst (fst r) <> 0 ->
      snd (fst r) = None
      /\ ((fst got <> 0 /\ fst (fst r) = fst got)
          \/ (fst got = 0 /\ heap 0%nat = false /\ fst (fst r) = ENOMEM)
          \/ (fst got = 0 /\ heap 0%nat = true
              /\ fst values <> 0 /\ fst (fst r) = fst values)
          \/ (fst got = 0 /\ heap 0%nat = true /\ heap 1%nat = false
              /\ snd values <> None /\ fst (fst r) = ENOMEM))).
Proof.
  intros r got values. subst r got values.
  unfold xrealmauthz_init_alloc, init_cleanup, and_then.
  destruct (krb5_get_profile lib) as [rcp prof]; cbn [fst snd].
  destruct (failed rcp) eqn:Hp; cbn [fst snd].
  { apply failed_true in Hp. split.
    - split; [contradiction | intros [H _]; contradiction].
    - intros _. split; [reflexivity | auto]. }
  apply failed_false in Hp. subst rcp.
  destruct (heap 0%nat) eqn:H0; cbn [negb fst snd].
  2:{ split.
      - split; [discriminate | intros (_ & H & _); discriminate].
      - intros _. split; [reflexivity | auto]. }
  destruct (profile_get_values lib prof _) as [rcv vals]; cbn [fst snd].
  destruct (Z.eqb_spec rcv PROF_NO_RELATION) as [Hno|Hrel].
  - subst rcv. cbn [failed negb Z.eqb].
    destruct vals as [l|]; cbn [is_some andb];
      [destruct (heap 1%nat) eqn:H1; cbn [negb fst snd]|cbn [fst snd]].
    + split; [split; auto 6 | intros H; now elim H].
    + split.
      * split; [discriminate|].
        intros (_ & _ & _ & [H|H]); discriminate.
      * intros _. split; [reflexivity|].
        right; right; right. repeat split; trivial. discriminate.
    + split; [split; auto 6 | intros H; now elim H].
  - destruct (failed rcv) eqn:Hv; cbn [fst snd].
    + apply failed_true in Hv. split.
      * split; [contradiction|].
        intros (_ & _ & [H|H] & _); contradiction.
      * intros _. split; [reflexivity|]. right; right; left. auto.
    + apply failed_false in Hv. subst rcv.
      destruct vals as [l|]; cbn [is_some andb];
        [destruct (heap 1%nat) eqn:H1; cbn [negb fst snd]|cbn [fst snd]].
      * split; [split; auto 6 | intros H; now elim H].
      * split.
        -- split; [discriminate|].
           intros (_ & _ & _ & [H|H]); discriminate.
        -- intros _. split; [reflexivity|].
           right; right; right. repeat split; trivial. discriminate.
      * split; [split; auto 6 | intros H; now elim H].
Qed.

(** X8. Loading hands out module data exactly when it returns 0, and
    reports the load through [com_err] exactly then, once, with the mode
    and the number of allowlist entries of the data it hands out.  A
    failed load hands out NULL and reports nothing. *)
Theorem init_gives_data_exactly_on_success lib :
  let r := xrealmauthz_init lib in
  (fst (fst r) = 0 ->
   exists d,
     snd (fst r) = Some d
     /\ loaded_messages (snd r)
        = [loaded_msg (enforcing d)
             match allowed_realms d with
             | Some entries => List.length entries
             | None => O
             end])
  /\ (fst (fst r) <> 0 ->
      snd (fst r) = None /\ loaded_messages (snd r) = []).
Proof.
  intros r. subst r. load lib.
  - split; [contradiction|]. intros _. split; trivial.
    destruct prof; reflexivity.
  - split; [|intros H; now elim H]. intros _. eexists. split; [reflexivity|].
    destruct vals as [l|], prof; cbn; unfold realm_entries;
      rewrite ?length_map; reflexivity.
  - split; [contradiction|]. intros _. split; trivial.
    destruct vals, prof; reflexivity.
  - split; [|intros H; now elim H]. intros _. eexists. split; [reflexivity|].
    destruct vals as [l|], prof; cbn; unfold realm_entries;
      rewrite ?length_map; reflexivity.
Qed.

(** X9. The module data of a load is in audit mode exactly when
    [profile_get_boolean] stored 0 for xrealmauthz_enforcing: when it
    stored nothing, whatever it returned, or anything else, the module
    enforces. *)
Theorem init_enforces_unless_told_not_to lib (d : xrealmauthz_data) :
  snd (fst (xrealmauthz_init lib)) = Some d ->
  (enforcing_of (Some d) = false
   <-> snd (profile_get_boolean lib (snd (krb5_get_profile lib))
              "kdcdefaults" "xrealmauthz_enforcing" None TRUE)
       = Some 0).
Proof.
  load lib; intros H; try discriminate H; injection H as <-;
    unfold enforcing_of; cbn [enforcing];
    destruct (snd (profile_get_boolean lib prof _ _ _ _)) as [v|];
    try (split; discriminate);
    destruct (Z.eqb_spec v 0) as [->|Hv]; cbn;
    (split; [trivial; discriminate | trivial]);
    intros E; injection E as E; contradiction.
Qed.

(** X10. For the module data of a load, a realm is pre-approved exactly
    when it is one of the values the profile gave for
    xrealmauthz_allowed_realms; when the profile gave none, no realm is. *)
Theorem init_allowlist_is_the_profile_list lib (d : xrealmauthz_data)
  (client_realm : krb5_data) :
  snd (fst (xrealmauthz_init lib)) = Some d ->
  (is_realm_preapproved (Some d) client_realm = true
   <-> exists names,
         snd (profile_get_values lib (snd (krb5_get_profile lib))
                ["kdcdefaults"; "xrealmauthz_allowed_realms"])
         = Some names
         /\ In client_realm names).
Proof.
  load lib; intros H; try discriminate H; injection H as <-;
    unfold is_realm_preapproved; cbn [allowed_realms];
    destruct vals as [l|]; cbn [option_map];
    try (split; [discriminate | intros (names & E & _); discriminate]);
    rewrite realm_scan_entries;
    (split; [intros Hin; now exists l
            | intros (names & E & Hin); now injection E as ->]).
Qed.

(** X11. After a load that handed out module data, unloading it returns 0
    and, with the releases of the load, releases everything once: the
    array the profile gave, each of its names in order, the array of
    entries and the module data; the names are never given back to
    [profile_free_list].  When the profile gave no list, the module data
    alone is released. *)
Theorem init_then_fini_releases_everything_once lib
  (d : xrealmauthz_data) :
  let r := xrealmauthz_init lib in
  snd (fst r) = Some d ->
  fst (xrealmauthz_fini (Some d)) = 0
  /\ (releases (snd r) ++ snd (xrealmauthz_fini (Some d)))%list
     = match snd (profile_get_values lib (snd (krb5_get_profile lib))
                    ["kdcdefaults"; "xrealmauthz_allowed_realms"]) with
       | Some names =>
           (free_profile_realm_list :: map free_name names
              ++ [free_allowed_realms; free_moddata])%list
       | None => [free_moddata]
       end.
Proof.
  intros r. subst r.
  load lib; intros H; try discriminate H; injection H as <-;
    (split; [reflexivity|]);
    destruct vals as [l|], prof; cbn;
    unfold release_moddata, realm_entries; cbn;
    rewrite ?map_map, <- ?app_assoc; reflexivity.
Qed.

(** X12. A load that fails before asking the profile anything releases
    nothing; one that fails on the query for the allowed realms releases
    the module data it had allocated and gives the list, if the query left
    one, back to [profile_free_list] whole. *)
Theorem init_failure_gives_back_what_it_took lib :
  let r := xrealmauthz_init lib in
  let got := krb5_get_profile lib in
  fst (fst r) <> 0 ->
  releases (snd r)
  = if failed (fst got) then []
    else free_moddata
         :: match snd (profile_get_values lib (snd got)
                         ["kdcdefaults"; "xrealmauthz_allowed_realms"]) with
            | Some l => [profile_free_list l]
            | None => []
            end.
Proof.
  intros r got. subst r got.
  load lib; intros H; try (now elim H).
  - destruct prof; reflexivity.
  - destruct vals, prof; reflexivity.
Qed.

Ltac before_release :=
  first
    [ now eexists [_] | now eexists [_; _] | now eexists [_; _; _]
    | now eexists [_; _; _; _] | now eexists [_; _; _; _; _]
    | now eexists [_; _; _; _; _; _] ].

(** X13. On every path of a load the profile that was obtained is
    released exactly once, as the last thing the load does; when none was
    obtained none is released. *)
Theorem init_releases_the_profile_once lib :
  let r := xrealmauthz_init lib in
  profiles_released (snd r)
  = match snd (krb5_get_profile lib) with
    | Some p => [p]
    | None => []
    end
  /\ (forall p, snd (krb5_get_profile lib) = Some p ->
      exists before, snd r = (before ++ [ev_profile_release p])%list).
Proof.
  intros r. subst r.
  load lib.
  - split; [destruct prof; reflexivity|].
    intros p E. subst prof. now exists [ev_krb5_get_profile].
  - split; [destruct vals, prof; reflexivity|].
    intros p E. subst prof. destruct vals; before_release.
  - split; [destruct vals, prof; reflexivity|].
    intros p E. subst prof. destruct vals; before_release.
  - split; [destruct vals, prof; reflexivity|].
    intros p E. subst prof. destruct vals; before_release.
Qed.

End Loading.

(** ** From the profile to the decision *)

Section LoadedModule.

Context {profile_t krb5_db_entry : Type}.

Lemma init_data lib_ (d : xrealmauthz_data) :
  snd (fst (xrealmauthz_init (profile_t := profile_t) lib_)) = Some d ->
  allowed_realms d
  = option_map realm_entries
      (snd (profile_get_values lib_ (snd (krb5_get_profile lib_))
              ["kdcdefaults"; "xrealmauthz_allowed_realms"])).
Proof.
  unfold xrealmauthz_init, init_cleanup, and_then.
  destruct (krb5_get_profile lib_) as [rcp prof]; cbn [fst snd].
  destruct (failed rcp); cbn [fst snd]; [discriminate|].
  destruct (profile_get_values lib_ prof _) as [rcv vals]; cbn [fst snd].
  destruct (failed _); cbn [fst snd]; [discriminate|].
  intros H. now injection H as <-.
Qed.

(** X14. A module loaded from a profile answers a ticket-granting request
    of a client whose realm is among the profile's values for
    xrealmauthz_allowed_realms with success and no status, in the state it
    started in: the database is not asked, whatever the host, the mode and
    the requested service. *)
Theorem listed_realm_is_served_without_the_database
  (lib_ : profile_lib profile_t) (d : xrealmauthz_data)
  (names : list string) (context : krb5_context krb5_db_entry)
  (request : krb5_kdc_req) (server : option krb5_db_entry)
  (ticket : krb5_ticket) (auth_indicators : list string)
  (lifetime_out renew_lifetime_out : option krb5_deltat)
  (st : kdc_state krb5_db_entry) :
  snd (fst (xrealmauthz_init lib_)) = Some d ->
  snd (profile_get_values lib_ (snd (krb5_get_profile lib_))
         ["kdcdefaults"; "xrealmauthz_allowed_realms"])
  = Some names ->
  In (realm (client (enc_part2 ticket))) names ->
  xrealmauthz_check context (Some d) request server ticket auth_indicators
    lifetime_out renew_lifetime_out st
  = ((0, StatusNull, option_map (fun _ => 0) lifetime_out,
      option_map (fun _ => 0) renew_lifetime_out), st).
Proof.
  intros Hd Hvals Hin. unfold xrealmauthz_check.
  destruct (krb5_realm_compare _ _); [reflexivity|].
  unfold bind, check_cross_realm_auth, is_realm_preapproved.
  rewrite (init_data lib_ d Hd), Hvals. cbn [option_map].
  rewrite (proj2 (realm_scan_entries names _) Hin). reflexivity.
Qed.

End LoadedModule.

(** ** Further runs on the example host and profiles *)

Import ExampleProfile.

Lemma enforcing_success_has_a_reason_witness :
  StatusNull = StatusNull
  /\ denial_msg
       (snd (xrealmauthz_check
               (host (db_with tgt_direct [("xr:alice", Value "1")]))
               enforce www None (mk_ticket alice tgt_direct) [] None None
               start))
     = denial_msg start
  /\ (realm (request_server www) = realm alice
      \/ is_realm_preapproved enforce (realm alice) = true
      \/ exists tgt v,
           krb5_db_get_principal
             (host (db_with tgt_direct [("xr:alice", Value "1")])) tgt_direct
           = (0, tgt)
           /\ (krb5_dbe_get_string
                 (host (db_with tgt_direct [("xr:alice", Value "1")])) tgt
                 ("xr:@" ++ print_data (realm alice))
               = (0, Some v)
               \/ exists s : string,
                    (if krb5_realm_compare tgt_direct alice
                     then krb5_unparse_name_flags
                            (host (db_with tgt_direct [("xr:alice", Value "1")]))
                            alice KRB5_PRINCIPAL_UNPARSE_NO_REALM
                     else krb5_unparse_name
                            (host (db_with tgt_direct [("xr:alice", Value "1")]))
                            alice)
                    = (0, s)
                    /\ krb5_dbe_get_string
                         (host (db_with tgt_direct [("xr:alice", Value "1")]))
                         tgt ("xr:" ++ s)
                       = (0, Some v))).
Proof.
  exact (enforcing_success_has_a_reason
           (host (db_with tgt_direct [("xr:alice", Value "1")]))
           enforce www None (mk_ticket alice tgt_direct) [] None None start
           StatusNull None None
           (snd (xrealmauthz_check
                   (host (db_with tgt_direct [("xr:alice", Value "1")]))
                   enforce www None (mk_ticket alice tgt_direct) [] None None
                   start))
           eq_refl eq_refl).
Defined.


Lemma denial_buffer_kept_without_denial_witness :
  denial_msg
    (snd (check_cross_realm_auth
            (host (db_with tgt_direct [("xr:@R1", Value "")]))
            (mk_ticket bob tgt_direct) www audit (snd alice_audit)))
  = "xrealmauthz plugin would deny alice@R1 for host/www@R2 from R1".
Proof.
  assert (H : snd (fst (check_cross_realm_auth
                          (host (db_with tgt_direct [("xr:@R1", Value "")]))
                          (mk_ticket bob tgt_direct) www audit
                          (snd alice_audit)))
              <> StatusDenialMsg) by discriminate.
  exact (denial_buffer_kept_without_denial
           (host (db_with tgt_direct [("xr:@R1", Value "")]))
           (mk_ticket bob tgt_direct) www audit (snd alice_audit) H).
Defined.

Lemma preapproved_exactly_the_listed_realms_witness :
  is_realm_preapproved (Some (mk_data 1 ["R0"; "R1"])) "R1" = true
  /\ is_realm_preapproved (Some (mk_data 1 ["R0"; "R1"])) "R" <> true.
Proof.
  destruct (preapproved_exactly_the_listed_realms 1 ["R0"; "R1"] "R1")
    as [[_ Hlisted] _].
  split; [apply Hlisted; simpl; auto|].
  destruct (preapproved_exactly_the_listed_realms 1 ["R0"; "R1"] "R")
    as [[Honly _] _].
  intros H. destruct (Honly H) as [E | [E | []]]; discriminate E.
Defined.

Lemma init_fails_only_on_profile_values_or_heap_witness :
  fst (fst (xrealmauthz_init_alloc granting (lib_of audit_only))) = 0
  /\ snd (fst (xrealmauthz_init_alloc (fun n => Nat.eqb n 0)
                 (lib_of two_realms)))
     = None.
Proof.
  destruct (init_fails_only_on_profile_values_or_heap granting
              (lib_of audit_only)) as [[_ Hok] _].
  split.
  - apply Hok. repeat split; [right; reflexivity | left; reflexivity].
  - destruct (init_fails_only_on_profile_values_or_heap
                (fun n => Nat.eqb n 0) (lib_of two_realms)) as [_ Hfail].
    assert (H : fst (fst (xrealmauthz_init_alloc (fun n => Nat.eqb n 0)
                            (lib_of two_realms))) <> 0)
      by discriminate.
    exact (proj1 (Hfail H)).
Defined.

Lemma init_gives_data_exactly_on_success_witness :
  (exists d,
     snd (fst (xrealmauthz_init (lib_of two_realms))) = Some d
     /\ loaded_messages (snd (xrealmauthz_init (lib_of two_realms)))
        = [loaded_msg (enforcing d)
             match allowed_realms d with
             | Some entries => List.length entries
             | None => O
             end])
  /\ snd (fst (xrealmauthz_init (no_profile 2))) = None.
Proof.
  split.
  - exact (proj1 (init_gives_data_exactly_on_success (lib_of two_realms))
             eq_refl).
  - assert (H : fst (fst (xrealmauthz_init (no_profile 2))) <> 0)
      by discriminate.
    exact (proj1 (proj2 (init_gives_data_exactly_on_success (no_profile 2))
                    H)).
Defined.

Lemma init_enforces_unless_told_not_to_witness :
  enforcing_of (Some {| enforcing := 0; allowed_realms := None |}) = false.
Proof.
  apply (init_enforces_unless_told_not_to (lib_of audit_only)
           {| enforcing := 0; allowed_realms := None |} eq_refl).
  reflexivity.
Defined.

Lemma init_allowlist_is_the_profile_list_witness :
  is_realm_preapproved (Some (mk_data 1 ["R0"; "R1"])) "R0" = true.
Proof.
  apply (init_allowlist_is_the_profile_list (lib_of two_realms)
           (mk_data 1 ["R0"; "R1"]) "R0" eq_refl).
  exists ["R0"; "R1"]. split; [reflexivity | simpl; auto].
Defined.

Lemma init_then_fini_releases_everything_once_witness :
  (releases (snd (xrealmauthz_init (lib_of two_realms)))
     ++ snd (xrealmauthz_fini (Some (mk_data 1 ["R0"; "R1"]))))%list
  = [free_profile_realm_list; free_name "R0"; free_name "R1";
     free_allowed_realms; free_moddata].
Proof.
  exact (proj2 (init_then_fini_releases_everything_once (lib_of two_realms)
                  (mk_data 1 ["R0"; "R1"]) eq_refl)).
Defined.

Lemma init_failure_gives_back_what_it_took_witness :
  releases (snd (xrealmauthz_init (lib_of unreadable))) = [free_moddata].
Proof.
  assert (H : fst (fst (xrealmauthz_init (lib_of unreadable))) <> 0)
    by discriminate.
  exact (init_failure_gives_back_what_it_took (lib_of unreadable) H).
Defined.

Lemma init_releases_the_profile_once_witness :
  exists before,
    snd (xrealmauthz_init (lib_of unreadable))
    = (before ++ [ev_profile_release unreadable])%list.
Proof.
  exact (proj2 (init_releases_the_profile_once (lib_of unreadable))
           unreadable eq_refl).
Defined.

Lemma listed_realm_is_served_without_the_database_witness :
  xrealmauthz_check (host []) (Some (mk_data 1 ["R0"; "R1"])) www None
    (mk_ticket alice tgt_direct) [] (Some 600) (Some 900) start
  = ((0, StatusNull, Some 0, Some 0), start).
Proof.
  apply (listed_realm_is_served_without_the_database (lib_of two_realms)
           (mk_data 1 ["R0"; "R1"]) ["R0"; "R1"] (host []) www None
           (mk_ticket alice tgt_direct) [] (Some 600) (Some 900) start
           eq_refl eq_refl).
  simpl. auto.
Defined.
